(** * yak: the Okta authentication core ([okta/okta.go])

    A shallow embedding of the package [okta]: the transport helper
    [makeRequest], the three authentication calls [Authenticate],
    [VerifyTotp] and [VerifyPush] (with its polling loop), the assertion
    exchange [AwsSamlLogin] and the HTML scan [extractSamlPayload].

    Conventions.
    - A Go [string] or [[]byte] is a [string] (a sequence of bytes).
    - A Go [int] is a [Z]; the one arithmetic operation of the package
      (the decrement of the error budget) is written with its 64-bit
      wrap-around.
    - A Go [error] is an [option error], [None] being [nil].
    - The outside world (the HTTP server, standard error, the clock) is a
      trace of events threaded through every call; the server is an oracle
      indexed by the number of requests already made.
    - The parts of the Go libraries that are too large to embed (JSON
      syntax, the HTML tokenizer, URL parsing) are the fields of the class
      [GoLib]; what the package itself decides (which struct field a JSON
      key fills, the attribute scan, the query string) is defined here. *)

From Stdlib Require Import ZArith List String Ascii Bool Lia.
Import ListNotations.
Local Open Scope string_scope.
Local Open Scope Z_scope.

(** ** Errors and status codes *)

Inductive error : Type :=
| errors_New (msg : string)              (* errors.New(msg) *)
| base64_CorruptInputError (offset : Z)  (* base64.CorruptInputError *)
| url_EscapeError (s : string)           (* url.EscapeError *)
| lib_error (msg : string).              (* any error made by a library or the transport *)

(* const ( YAK_STATUS_OK = iota ... ) *)
Definition YAK_STATUS_OK : Z := 0.
Definition YAK_STATUS_UNAUTHORISED : Z := 1.
Definition YAK_STATUS_DATA_ERROR : Z := 2.
Definition YAK_STATUS_NET_ERROR : Z := 3.
Definition YAK_STATUS_BAD_RESPONSE : Z := 4.

(** Go's [int] on the platforms yak is released for: 64 bits, two's
    complement. *)
Definition int_wrap (z : Z) : Z := (z + 2 ^ 63) mod 2 ^ 64 - 2 ^ 63.
Definition int_sub (a b : Z) : Z := int_wrap (a - b).
Definition int_in_range (z : Z) : bool := (- 2 ^ 63 <=? z) && (z <? 2 ^ 63).

(** ** Byte strings *)

Definition LF : string := String (ascii_of_nat 10) "".
Definition DQ : string := String (ascii_of_nat 34) "".

(* A field name as json.Marshal writes it: quoted, then a colon. *)
Definition json_key (name : string) : string := DQ ++ name ++ DQ ++ ":".

Fixpoint all_chars (p : ascii -> bool) (s : string) : bool :=
  match s with
  | EmptyString => true
  | String c r => p c && all_chars p r
  end.

Definition char_in (lo hi c : ascii) : bool :=
  (nat_of_ascii lo <=? nat_of_ascii c)%nat && (nat_of_ascii c <=? nat_of_ascii hi)%nat.

Definition is_digit (c : ascii) : bool := char_in "0" "9" c.
Definition is_upper (c : ascii) : bool := char_in "A" "Z" c.
Definition is_lower (c : ascii) : bool := char_in "a" "z" c.
Definition is_alpha (c : ascii) : bool := is_upper c || is_lower c.

Definition to_lower (c : ascii) : ascii :=
  if is_upper c then ascii_of_nat (nat_of_ascii c + 32) else c.

Fixpoint lower_string (s : string) : string :=
  match s with
  | EmptyString => EmptyString
  | String c r => String (to_lower c) (lower_string r)
  end.

(** ** The data model (the struct declarations of okta.go) *)

Record UserData := mkUserData {
  Username : string;                       (* json:"username" *)
  Password : string                        (* json:"password" *)
}.

Record TotpRequest := mkTotpRequest {
  Totp_StateToken : string;                (* json:"stateToken" *)
  PassCode : string                        (* json:"passCode" *)
}.

Record PushRequest := mkPushRequest {
  Push_StateToken : string                 (* json:"stateToken" *)
}.

Record OktaLink := mkOktaLink {
  Href : string                            (* json:"href" *)
}.

Record AuthResponseFactorLinks := mkAuthResponseFactorLinks {
  VerifyLink : OktaLink                    (* json:"verify" *)
}.

Record PushRequestResponseLinks := mkPushRequestResponseLinks {
  PollLink : OktaLink                      (* json:"next" *)
}.

Record PushRequestResponse := mkPushRequestResponse {
  Push_Links : PushRequestResponseLinks;   (* json:"_links" *)
  FactorResult : string                    (* json:"factorResult" *)
}.

Record AuthResponseFactor := mkAuthResponseFactor {
  Links : AuthResponseFactorLinks;         (* json:"_links" *)
  FactorType : string;                     (* json:"factorType" *)
  Provider : string                        (* json:"provider" *)
}.

(** A Go slice: the backing array and the length in use
    (the capacity is the length of the backing array). *)
Record slice (A : Type) := mkSlice {
  backing : list A;
  slen : nat
}.
Arguments mkSlice {A} _ _.
Arguments backing {A} _.
Arguments slen {A} _.

Definition nil_slice {A : Type} : slice A := mkSlice [] 0%nat.

Record AuthResponseEmbedded := mkAuthResponseEmbedded {
  Factors : slice AuthResponseFactor       (* json:"factors" *)
}.

Record OktaAuthResponse := mkOktaAuthResponse {
  StateToken : string;                     (* json:"stateToken" *)
  SessionToken : string;                   (* json:"sessionToken" *)
  ExpiresAt : string;                      (* json:"expiresAt" *)
  Status : string;                         (* json:"status" *)
  Embedded : AuthResponseEmbedded;         (* json:"_embedded" *)
  YakStatusCode : Z                        (* exported, no tag *)
}.

(** Zero values. *)
Definition zero_OktaLink : OktaLink := mkOktaLink "".
Definition zero_AuthResponseFactor : AuthResponseFactor :=
  mkAuthResponseFactor (mkAuthResponseFactorLinks zero_OktaLink) "" "".
Definition zero_PushRequestResponse : PushRequestResponse :=
  mkPushRequestResponse (mkPushRequestResponseLinks zero_OktaLink) "".
Definition zero_AuthResponseEmbedded : AuthResponseEmbedded :=
  mkAuthResponseEmbedded nil_slice.

(* OktaAuthResponse{YakStatusCode: st} *)
Definition OktaAuthResponse_with (st : Z) : OktaAuthResponse :=
  mkOktaAuthResponse "" "" "" "" zero_AuthResponseEmbedded st.

Definition set_YakStatusCode (st : Z) (r : OktaAuthResponse) : OktaAuthResponse :=
  mkOktaAuthResponse (StateToken r) (SessionToken r) (ExpiresAt r) (Status r)
    (Embedded r) st.

(** ** The outside world *)

(* time.Duration counts nanoseconds. *)
Definition time_Second : Z := 1000000000.

Inductive Event : Type :=
| EvPost (url body : string)     (* http.Post(url, "application/json", body) *)
| EvGet (url : string)           (* client.Get(url), fresh cookie jar *)
| EvStderr (s : string)          (* fmt.Fprintf(os.Stderr, s) *)
| EvSleep (d : Z).               (* time.Sleep(d) *)

(** The trace so far, oldest event first. *)
Definition World := list Event.

Definition is_request (e : Event) : bool :=
  match e with
  | EvPost _ _ | EvGet _ => true
  | _ => false
  end.

Definition n_requests (w : World) : nat := List.length (filter is_request w).

Definition is_post (e : Event) : bool :=
  match e with
  | EvPost _ _ => true
  | _ => false
  end.

Definition n_posts (w : World) : nat := List.length (filter is_post w).

(** What [net/http] hands back: the status line and what
    [ioutil.ReadAll(resp.Body)] will return. *)
Record HttpResponse := mkHttpResponse {
  resp_StatusCode : Z;
  resp_Status : string;
  resp_Body : string * option error
}.

Inductive HttpResult : Type :=
| HttpErr (e : error)            (* the call returned a non-nil error *)
| HttpOk (r : HttpResponse).

(** The server: the answer to the [n]-th request of the run. *)
Record Network := mkNetwork {
  http_Post : nat -> string -> string -> HttpResult;
  http_Get : nat -> string -> HttpResult
}.

(** A small state monad over the trace. *)
Definition M (A : Type) : Type := World -> A * World.

Definition ret {A : Type} (a : A) : M A := fun w => (a, w).
Definition bind {A B : Type} (m : M A) (k : A -> M B) : M B :=
  fun w => let (a, w') := m w in k a w'.
Definition emit (e : Event) : M unit := fun w => (tt, (w ++ [e])%list).

Declare Scope io_scope.
Delimit Scope io_scope with io.
Notation "x <- m ;; k" := (bind m (fun x => k))
  (at level 61, m at next level, right associativity) : io_scope.
Notation "m ;;; k" := (bind m (fun _ => k))
  (at level 61, right associativity) : io_scope.

Definition eprint (s : string) : M unit := emit (EvStderr s).
Definition time_Sleep (d : Z) : M unit := emit (EvSleep d).

Section Transport.
Variable net : Network.

Definition http_Post_call (url body : string) : M HttpResult :=
  fun w => (http_Post net (n_requests w) url body, (w ++ [EvPost url body])%list).

Definition client_Get (url : string) : M HttpResult :=
  fun w => (http_Get net (n_requests w) url, (w ++ [EvGet url])%list).

(* func makeRequest(url string, body io.Reader) ([]byte, int, error) *)
Definition makeRequest (url body : string) : M (string * Z * option error) :=
  (r <- http_Post_call url body ;;
   match r with
   | HttpErr err => ret ("", YAK_STATUS_NET_ERROR, Some err)
   | HttpOk resp =>
       if (resp_StatusCode resp =? 401) || (resp_StatusCode resp =? 403) then
         ret ("", YAK_STATUS_UNAUTHORISED,
              Some (errors_New ("Unauthorised (" ++ resp_Status resp ++ ")")))
       else if 300 <=? resp_StatusCode resp then
         ret ("", YAK_STATUS_NET_ERROR,
              Some (errors_New ("Network error (" ++ resp_Status resp ++ ")")))
       else
         let (responseBody, err) := resp_Body resp in
         match err with
         | Some e => ret (responseBody, YAK_STATUS_BAD_RESPONSE, Some e)
         | None => ret (responseBody, YAK_STATUS_OK, err)
         end
   end)%io.
End Transport.

(** ** encoding/json: filling the structs of the package

    [json.Unmarshal(body, &v)] first checks that [body] is one well-formed
    JSON text (leaving [v] untouched if it is not) and then stores the
    value into [v], skipping over whatever does not fit; the package
    ignores the error it returns.  The syntax is the library's
    ([json_parse] of [GoLib]); which field a key fills is decided by the
    struct declarations above and is written out here. *)

Unset Elimination Schemes.
Inductive JSON : Type :=
| JNull
| JBool (b : bool)
| JNumber (literal : string)
| JString (s : string)
| JArray (elems : list JSON)
| JObject (members : list (string * JSON)).
Set Elimination Schemes.

Fixpoint digits_value (s : string) (acc : Z) : Z :=
  match s with
  | EmptyString => acc
  | String c r => digits_value r (acc * 10 + (Z.of_nat (nat_of_ascii c) - 48))
  end.

Definition parse_digits (s : string) : option Z :=
  match s with
  | EmptyString => None
  | _ => if all_chars is_digit s then Some (digits_value s 0) else None
  end.

(* strconv.ParseInt(s, 10, 64) *)
Definition strconv_ParseInt (s : string) : option Z :=
  let r :=
    match s with
    | String "-" d => option_map Z.opp (parse_digits d)
    | String "+" d => parse_digits d
    | _ => parse_digits s
    end in
  match r with
  | Some n => if int_in_range n then Some n else None
  | None => None
  end.

(* A JSON value stored into a Go string: only a JSON string fits. *)
Definition store_string (j : JSON) (old : string) : string :=
  match j with
  | JString s => s
  | _ => old
  end.

(* A JSON value stored into a Go int: only an integer literal in range fits. *)
Definition store_int (j : JSON) (old : Z) : Z :=
  match j with
  | JNumber lit =>
      match strconv_ParseInt lit with
      | Some n => n
      | None => old
      end
  | _ => old
  end.

Definition is_long_s (a b : ascii) : bool :=       (* U+017F, C5 BF *)
  (nat_of_ascii a =? 197)%nat && (nat_of_ascii b =? 191)%nat.
Definition is_kelvin (a b c : ascii) : bool :=     (* U+212A, E2 84 AA *)
  (nat_of_ascii a =? 226)%nat && (nat_of_ascii b =? 132)%nat
  && (nat_of_ascii c =? 170)%nat.

(** Keys are matched to field names without regard to case; the two
    non-ASCII letters that fold to ASCII ones count as [s] and [k]. *)
Fixpoint foldName (s : string) : string :=
  match s with
  | EmptyString => EmptyString
  | String c t =>
      match t with
      | EmptyString => String (to_lower c) EmptyString
      | String a t' =>
          if is_long_s c a then String "s" (foldName t')
          else
            match t' with
            | EmptyString => String (to_lower c) (foldName t)
            | String b t'' =>
                if is_kelvin c a b then String "k" (foldName t'')
                else String (to_lower c) (foldName t)
            end
      end
  end.

(* A JSON object stored into a struct: the members in order, each into
   the field its key names; anything but an object leaves the struct as
   it is. *)
Definition decode_struct {T : Type} (field : string -> JSON -> T -> T)
    (j : JSON) (old : T) : T :=
  match j with
  | JObject members =>
      fold_left (fun acc kv => field (foldName (fst kv)) (snd kv) acc) members old
  | _ => old
  end.

Fixpoint replace_nth {A : Type} (i : nat) (x : A) (l : list A) : list A :=
  match l, i with
  | [], _ => []
  | _ :: r, O => x :: r
  | y :: r, S i' => y :: replace_nth i' x r
  end.

(* The element loop of a JSON array stored into a slice. *)
Fixpoint array_elems {A : Type} (dec : JSON -> A -> A) (zero : A)
    (js : list JSON) (i : nat) (v : slice A) : slice A * nat :=
  match js with
  | [] => (v, i)
  | j :: rest =>
      let cap := List.length (backing v) in
      let v :=
        if (cap <=? i)%nat then
          let newcap := Nat.max 4 (cap + cap / 2) in
          mkSlice (firstn (slen v) (backing v)
                   ++ repeat zero (newcap - slen v))%list (slen v)
        else v in
      let v := if (slen v <=? i)%nat then mkSlice (backing v) (S i) else v in
      let v := mkSlice (replace_nth i (dec j (nth i (backing v) zero)) (backing v))
                       (slen v) in
      array_elems dec zero rest (S i) v
  end.

Definition decode_slice {A : Type} (dec : JSON -> A -> A) (zero : A)
    (j : JSON) (v : slice A) : slice A :=
  match j with
  | JNull => nil_slice
  | JArray js =>
      let (v, i) := array_elems dec zero js 0 v in
      let v := if (i <? slen v)%nat then mkSlice (backing v) i else v in
      if (i =? 0)%nat then mkSlice [] 0%nat else v
  | _ => v
  end.

Definition OktaLink_field (k : string) (j : JSON) (v : OktaLink) : OktaLink :=
  if (k =? "href")%string then mkOktaLink (store_string j (Href v)) else v.

Definition AuthResponseFactorLinks_field (k : string) (j : JSON)
    (v : AuthResponseFactorLinks) : AuthResponseFactorLinks :=
  if (k =? "verify")%string
  then mkAuthResponseFactorLinks (decode_struct OktaLink_field j (VerifyLink v))
  else v.

Definition PushRequestResponseLinks_field (k : string) (j : JSON)
    (v : PushRequestResponseLinks) : PushRequestResponseLinks :=
  if (k =? "next")%string
  then mkPushRequestResponseLinks (decode_struct OktaLink_field j (PollLink v))
  else v.

Definition PushRequestResponse_field (k : string) (j : JSON)
    (v : PushRequestResponse) : PushRequestResponse :=
  if (k =? "_links")%string then
    mkPushRequestResponse
      (decode_struct PushRequestResponseLinks_field j (Push_Links v)) (FactorResult v)
  else if (k =? "factorresult")%string then
    mkPushRequestResponse (Push_Links v) (store_string j (FactorResult v))
  else v.

Definition AuthResponseFactor_field (k : string) (j : JSON)
    (v : AuthResponseFactor) : AuthResponseFactor :=
  if (k =? "_links")%string then
    mkAuthResponseFactor (decode_struct AuthResponseFactorLinks_field j (Links v))
                         (FactorType v) (Provider v)
  else if (k =? "factortype")%string then
    mkAuthResponseFactor (Links v) (store_string j (FactorType v)) (Provider v)
  else if (k =? "provider")%string then
    mkAuthResponseFactor (Links v) (FactorType v) (store_string j (Provider v))
  else v.

Definition AuthResponseEmbedded_field (k : string) (j : JSON)
    (v : AuthResponseEmbedded) : AuthResponseEmbedded :=
  if (k =? "factors")%string then
    mkAuthResponseEmbedded
      (decode_slice (decode_struct AuthResponseFactor_field) zero_AuthResponseFactor
                    j (Factors v))
  else v.

Definition OktaAuthResponse_field (k : string) (j : JSON)
    (v : OktaAuthResponse) : OktaAuthResponse :=
  if (k =? "statetoken")%string then
    mkOktaAuthResponse (store_string j (StateToken v)) (SessionToken v) (ExpiresAt v)
                       (Status v) (Embedded v) (YakStatusCode v)
  else if (k =? "sessiontoken")%string then
    mkOktaAuthResponse (StateToken v) (store_string j (SessionToken v)) (ExpiresAt v)
                       (Status v) (Embedded v) (YakStatusCode v)
  else if (k =? "expiresat")%string then
    mkOktaAuthResponse (StateToken v) (SessionToken v) (store_string j (ExpiresAt v))
                       (Status v) (Embedded v) (YakStatusCode v)
  else if (k =? "status")%string then
    mkOktaAuthResponse (StateToken v) (SessionToken v) (ExpiresAt v)
                       (store_string j (Status v)) (Embedded v) (YakStatusCode v)
  else if (k =? "_embedded")%string then
    mkOktaAuthResponse (StateToken v) (SessionToken v) (ExpiresAt v) (Status v)
                       (decode_struct AuthResponseEmbedded_field j (Embedded v))
                       (YakStatusCode v)
  else if (k =? "yakstatuscode")%string then
    mkOktaAuthResponse (StateToken v) (SessionToken v) (ExpiresAt v) (Status v)
                       (Embedded v) (store_int j (YakStatusCode v))
  else v.

(** ** golang.org/x/net/html and net/url: the values the package handles *)

Inductive TokenType : Type :=
| ErrorToken | TextToken | StartTagToken | EndTagToken
| SelfClosingTagToken | CommentToken | DoctypeToken.

Record Attribute := mkAttribute {
  Namespace : string;
  Key : string;
  Val : string
}.

Record Token := mkToken {
  Type_ : TokenType;
  Data : string;
  Attr : list Attribute
}.

Record URL := mkURL {
  Scheme : string;
  Opaque : string;
  User : option (string * option string);
  Host : string;
  Path : string;
  RawPath : string;
  ForceQuery : bool;
  RawQuery : string;
  Fragment : string
}.

Definition set_RawQuery (q : string) (u : URL) : URL :=
  mkURL (Scheme u) (Opaque u) (User u) (Host u) (Path u) (RawPath u)
        (ForceQuery u) q (Fragment u).

(** The library functions taken as given. *)
Class GoLib := {
  (* the JSON text of a Go string, as json.Marshal writes it *)
  json_quote : string -> string;
  (* the value of a well-formed JSON text; None for anything else *)
  json_parse : string -> option JSON;
  (* the tokens html.NewTokenizer yields before it reports the end of
     the input *)
  html_tokens : string -> list Token;
  (* url.Parse *)
  url_Parse : string -> error + URL;
  (* ResolveReference, a method of URL *)
  URL_ResolveReference : URL -> URL -> URL;
  (* String, a method of URL *)
  URL_String : URL -> string
}.

(** ** encoding/base64: [base64.StdEncoding.DecodeString] *)

Definition decodeMap (c : ascii) : option Z :=
  let n := Z.of_nat (nat_of_ascii c) in
  if is_upper c then Some (n - 65)
  else if is_lower c then Some (n - 97 + 26)
  else if is_digit c then Some (n - 48 + 52)
  else if (c =? "+")%char then Some 62
  else if (c =? "/")%char then Some 63
  else None.

Definition is_newline (c : ascii) : bool :=
  (nat_of_ascii c =? 10)%nat || (nat_of_ascii c =? 13)%nat.

Fixpoint skip_newlines (src : string) (si : Z) : string * Z :=
  match src with
  | String c rest => if is_newline c then skip_newlines rest (si + 1) else (src, si)
  | EmptyString => (src, si)
  end.

Definition byte_of_Z (z : Z) : ascii := ascii_of_nat (Z.to_nat (z mod 256)).

(* The bytes of a quantum of which [dlen] characters were read. *)
Definition quantum_bytes (dbuf : list Z) (dlen : nat) : string :=
  let val := Z.lor (Z.lor (Z.shiftl (nth 0 dbuf 0) 18) (Z.shiftl (nth 1 dbuf 0) 12))
                   (Z.lor (Z.shiftl (nth 2 dbuf 0) 6) (nth 3 dbuf 0)) in
  let b0 := byte_of_Z (Z.shiftr val 16) in
  let b1 := byte_of_Z (Z.shiftr val 8) in
  let b2 := byte_of_Z val in
  match dlen with
  | 4%nat => String b0 (String b1 (String b2 ""))
  | 3%nat => String b0 (String b1 "")
  | 2%nat => String b0 ""
  | _ => ""
  end.

(* decodeQuantum: reads up to four characters from [src], which starts at
   offset [si] of an input of [len] bytes; returns what is left of the
   input, the bytes decoded and the error. *)
Fixpoint decodeQuantum (dbuf : list Z) (src : string) (si len : Z) {struct src}
    : (string * Z) * (string * option error) :=
  let j := List.length dbuf in
  if (j =? 4)%nat then ((src, si), (quantum_bytes dbuf 4, None))
  else
    match src with
    | EmptyString =>
        if (j =? 0)%nat then ((src, si), ("", None))
        else ((src, si), ("", Some (base64_CorruptInputError (si - Z.of_nat j))))
    | String c rest =>
        let si := si + 1 in
        match decodeMap c with
        | Some out => decodeQuantum (dbuf ++ [out])%list rest si len
        | None =>
            if is_newline c then decodeQuantum dbuf rest si len
            else if negb (c =? "=")%char then
              ((rest, si), ("", Some (base64_CorruptInputError (si - 1))))
            else if (j <? 2)%nat then
              ((rest, si), ("", Some (base64_CorruptInputError (si - 1))))
            else
              let after_pad (p : string * Z) :=
                let (src', si') := skip_newlines (fst p) (snd p) in
                let err := match src' with
                           | EmptyString => None
                           | _ => Some (base64_CorruptInputError si')
                           end in
                ((src', si'), (quantum_bytes dbuf j, err)) in
              if (j =? 2)%nat then
                let (src2, si2) := skip_newlines rest si in
                match src2 with
                | EmptyString =>
                    ((src2, si2), ("", Some (base64_CorruptInputError len)))
                | String c2 rest2 =>
                    if negb (c2 =? "=")%char then
                      ((src2, si2), ("", Some (base64_CorruptInputError (si2 - 1))))
                    else after_pad (rest2, si2 + 1)
                end
              else after_pad (rest, si)
        end
    end.

Fixpoint base64_Decode (fuel : nat) (src : string) (si len : Z) : string * option error :=
  match fuel, src with
  | _, EmptyString => ("", None)
  | O, _ => ("", None)
  | S fuel', _ =>
      let '((src', si'), (out, err)) := decodeQuantum [] src si len in
      match err with
      | Some e => (out, Some e)
      | None =>
          let (more, err') := base64_Decode fuel' src' si' len in
          (out ++ more, err')
      end
  end.

Definition base64_StdEncoding_DecodeString (s : string) : string * option error :=
  base64_Decode (String.length s) s 0 (Z.of_nat (String.length s)).

(** ** net/url: query strings *)

Definition hex_upper (n : nat) : ascii :=
  nth n (list_ascii_of_string "0123456789ABCDEF") "0"%char.

Definition unhex (c : ascii) : option nat :=
  let n := nat_of_ascii c in
  if is_digit c then Some (n - 48)%nat
  else if char_in "a" "f" c then Some (n - 97 + 10)%nat
  else if char_in "A" "F" c then Some (n - 65 + 10)%nat
  else None.

(* shouldEscape(c, encodeQueryComponent) *)
Definition shouldEscape (c : ascii) : bool :=
  negb (is_alpha c || is_digit c
        || (c =? "-")%char || (c =? "_")%char || (c =? ".")%char || (c =? "~")%char).

Fixpoint url_QueryEscape (s : string) : string :=
  match s with
  | EmptyString => EmptyString
  | String c r =>
      if shouldEscape c then
        if (c =? " ")%char then String "+" (url_QueryEscape r)
        else String "%" (String (hex_upper (nat_of_ascii c / 16))
                        (String (hex_upper (nat_of_ascii c mod 16))
                                (url_QueryEscape r)))
      else String c (url_QueryEscape r)
  end.

Fixpoint url_QueryUnescape (s : string) : error + string :=
  match s with
  | EmptyString => inr EmptyString
  | String c r =>
      if (c =? "%")%char then
        match r with
        | String a (String b r') =>
            match unhex a, unhex b with
            | Some x, Some y =>
                match url_QueryUnescape r' with
                | inr t => inr (String (ascii_of_nat (x * 16 + y)) t)
                | inl e => inl e
                end
            | _, _ => inl (url_EscapeError (String c (String a (String b ""))))
            end
        | _ => inl (url_EscapeError s)
        end
      else
        match url_QueryUnescape r with
        | inr t => inr (String (if (c =? "+")%char then " "%char else c) t)
        | inl e => inl e
        end
  end.

(* url.Values: the keys in order of first use, each with its values. *)
Definition Values := list (string * list string).

Fixpoint Values_Add (key value : string) (v : Values) : Values :=
  match v with
  | [] => [(key, [value])]
  | (k, vs) :: r =>
      if (k =? key)%string then (k, (vs ++ [value])%list) :: r
      else (k, vs) :: Values_Add key value r
  end.

Fixpoint insert_sorted (k : string) (l : list string) : list string :=
  match l with
  | [] => [k]
  | x :: r => if String.leb k x then k :: l else x :: insert_sorted k r
  end.

Definition sort_Strings (l : list string) : list string :=
  fold_right insert_sorted [] l.

Definition Values_lookup (key : string) (v : Values) : list string :=
  match find (fun kv => (fst kv =? key)%string) v with
  | Some kv => snd kv
  | None => []
  end.

(* Values.Encode: sorted by key, "k=v" joined by "&". *)
Definition Values_Encode (v : Values) : string :=
  String.concat "&"
    (flat_map (fun k => map (fun x => url_QueryEscape k ++ "=" ++ url_QueryEscape x)
                            (Values_lookup k v))
              (sort_Strings (map fst v))).

(* Splits at the first character satisfying [p]. *)
Fixpoint break_at (p : ascii -> bool) (s : string) : string * option string :=
  match s with
  | EmptyString => (EmptyString, None)
  | String c r =>
      if p c then (EmptyString, Some r)
      else let (a, b) := break_at p r in (String c a, b)
  end.

Definition is_query_sep (c : ascii) : bool := (c =? "&")%char || (c =? ";")%char.

Fixpoint split_query (fuel : nat) (query : string) : list string :=
  match fuel with
  | O => []
  | S fuel' =>
      match break_at is_query_sep query with
      | (key, Some rest) => key :: split_query fuel' rest
      | (key, None) => [key]
      end
  end.

(* url.ParseQuery: the parameters in order of appearance and the first
   error met. *)
Definition parse_pair (acc : list (string * string) * option error) (seg : string)
    : list (string * string) * option error :=
  let (m, err) := acc in
  let keep e := match err with None => Some e | Some _ => err end in
  match seg with
  | EmptyString => acc
  | _ =>
      let (key, value) :=
        match break_at (fun c => (c =? "=")%char) seg with
        | (k, Some v) => (k, v)
        | (k, None) => (k, EmptyString)
        end in
      match url_QueryUnescape key with
      | inl e => (m, keep e)
      | inr key' =>
          match url_QueryUnescape value with
          | inl e => (m, keep e)
          | inr value' => ((m ++ [(key', value')])%list, err)
          end
      end
  end.

Definition url_ParseQuery (query : string) : list (string * string) * option error :=
  match query with
  | EmptyString => ([], None)
  | _ => fold_left parse_pair (split_query (S (String.length query)) query) ([], None)
  end.

(** ** The package *)

Section Okta.
Context {L : GoLib}.
Variable net : Network.

(* json.Unmarshal(data, &v), error ignored *)
Definition json_Unmarshal {T : Type} (dec : JSON -> T -> T) (data : string) (v : T) : T :=
  match json_parse data with
  | Some j => dec j v
  | None => v
  end.

Definition Unmarshal_OktaAuthResponse : string -> OktaAuthResponse -> OktaAuthResponse :=
  json_Unmarshal (decode_struct OktaAuthResponse_field).

Definition Unmarshal_PushRequestResponse
    : string -> PushRequestResponse -> PushRequestResponse :=
  json_Unmarshal (decode_struct PushRequestResponse_field).

(* json.Marshal of the three request structs: every field is a string,
   so the error is always nil. *)
Definition Marshal_UserData (u : UserData) : string * option error :=
  ("{" ++ json_key "username" ++ json_quote (Username u)
    ++ "," ++ json_key "password" ++ json_quote (Password u) ++ "}", None).

Definition Marshal_TotpRequest (t : TotpRequest) : string * option error :=
  ("{" ++ json_key "stateToken" ++ json_quote (Totp_StateToken t)
    ++ "," ++ json_key "passCode" ++ json_quote (PassCode t) ++ "}", None).

Definition Marshal_PushRequest (p : PushRequest) : string * option error :=
  ("{" ++ json_key "stateToken" ++ json_quote (Push_StateToken p) ++ "}", None).

(* url.Parse("/api/v1/authn"): a path and nothing else *)
Definition primaryAuthEndpoint : URL :=
  mkURL "" "" None "" "/api/v1/authn" "" false "" "".

(* func Authenticate(oktaHref string, userData UserData) (OktaAuthResponse, error) *)
Definition Authenticate (oktaHref : string) (userData : UserData)
    : M (OktaAuthResponse * option error) :=
  let (authBody, err) := Marshal_UserData userData in
  match err with
  | Some e => ret (OktaAuthResponse_with YAK_STATUS_DATA_ERROR, Some e)
  | None =>
      match url_Parse oktaHref with
      | inl e => ret (OktaAuthResponse_with YAK_STATUS_DATA_ERROR, Some e)
      | inr oktaUrl =>
          let primaryAuthUrl := URL_ResolveReference oktaUrl primaryAuthEndpoint in
          (r <- makeRequest net (URL_String primaryAuthUrl) authBody ;;
           let '(body, yakStatus, err) := r in
           match err with
           | Some e => ret (OktaAuthResponse_with yakStatus, Some e)
           | None =>
               let authResponse := OktaAuthResponse_with YAK_STATUS_OK in
               let authResponse := Unmarshal_OktaAuthResponse body authResponse in
               ret (authResponse, None)
           end)%io
      end
  end.

(* func VerifyTotp(url string, totpRequestBody TotpRequest) (OktaAuthResponse, error) *)
Definition VerifyTotp (url : string) (totpRequestBody : TotpRequest)
    : M (OktaAuthResponse * option error) :=
  let (totpJson, err) := Marshal_TotpRequest totpRequestBody in
  match err with
  | Some e => ret (OktaAuthResponse_with YAK_STATUS_DATA_ERROR, Some e)
  | None =>
      (r <- makeRequest net url totpJson ;;
       let '(body, yakStatus, err) := r in
       match err with
       | Some e => ret (OktaAuthResponse_with yakStatus, Some e)
       | None =>
           let authResponse := OktaAuthResponse_with YAK_STATUS_OK in
           let authResponse := Unmarshal_OktaAuthResponse body authResponse in
           ret (authResponse, None)
       end)%io
  end.

(* The [for] loop of VerifyPush.  [fuel] bounds the number of
   iterations; [None] means the bound was reached. *)
Fixpoint poll_loop (fuel : nat) (href pushJson : string) (errorsRemaining : Z)
    (w : World) : option ((OktaAuthResponse * option error) * World) :=
  match fuel with
  | O => None
  | S fuel' =>
      let '((body, yakStatus, err), w) := makeRequest net href pushJson w in
      let authResponse := OktaAuthResponse_with yakStatus in
      match err with
      | Some e =>
          let errorsRemaining := int_sub errorsRemaining 1 in
          if errorsRemaining =? 0 then
            let (_, w) := eprint (LF ++ "Too many network errors, aborting...") w in
            Some ((authResponse, Some e), w)
          else poll_loop fuel' href pushJson errorsRemaining w
      | None =>
          let authResponse := Unmarshal_OktaAuthResponse body authResponse in
          if negb (Status authResponse =? "MFA_CHALLENGE")%string then
            if (Status authResponse =? "SUCCESS")%string then
              let (_, w) := eprint LF w in
              Some ((authResponse, None), w)
            else
              let (_, w) := eprint LF w in
              let authResponse := set_YakStatusCode YAK_STATUS_BAD_RESPONSE authResponse in
              Some ((authResponse,
                     Some (errors_New ("Bad status from Okta API: " ++ Status authResponse))),
                    w)
          else
            let (_, w) := eprint "." w in
            let (_, w) := time_Sleep (5 * time_Second) w in
            poll_loop fuel' href pushJson errorsRemaining w
      end
  end.

(* func VerifyPush(url string, pushRequestBody PushRequest) (OktaAuthResponse, error) *)
Definition VerifyPush (fuel : nat) (url : string) (pushRequestBody : PushRequest)
    (w : World) : option ((OktaAuthResponse * option error) * World) :=
  let (pushJson, err) := Marshal_PushRequest pushRequestBody in
  match err with
  | Some e => Some ((OktaAuthResponse_with YAK_STATUS_DATA_ERROR, Some e), w)
  | None =>
      let '((body, yakStatus, err), w) := makeRequest net url pushJson w in
      match err with
      | Some e => Some ((OktaAuthResponse_with yakStatus, Some e), w)
      | None =>
          let pushRequestResponse :=
            Unmarshal_PushRequestResponse body zero_PushRequestResponse in
          let errorsRemaining := 6 in
          let (_, w) := eprint "Waiting for MFA response" w in
          poll_loop fuel (Href (PollLink (Push_Links pushRequestResponse)))
                    pushJson errorsRemaining w
      end
  end.

(* The attribute loop of extractSamlPayload. *)
Fixpoint scan_attributes (attrs : list Attribute) (inputName inputValue : string)
    : string * string :=
  match attrs with
  | [] => (inputName, inputValue)
  | attribute :: rest =>
      let inputName :=
        if (Key attribute =? "name")%string then Val attribute else inputName in
      let inputValue :=
        if (Key attribute =? "value")%string then Val attribute else inputValue in
      scan_attributes rest inputName inputValue
  end.

Definition is_ErrorToken (t : TokenType) : bool :=
  match t with ErrorToken => true | _ => false end.

Definition is_tag_open (t : TokenType) : bool :=
  match t with SelfClosingTagToken | StartTagToken => true | _ => false end.

(* The token loop of extractSamlPayload over what the tokeniser still
   has to give; once the tokens run out, Next() reports ErrorToken.
   Returns the result and the tokens not consumed. *)
Fixpoint scan_tokens (ts : list Token) : (string * option error) * list Token :=
  match ts with
  | [] => (("", Some (errors_New "No SAML payload found in response from Okta")), [])
  | token :: rest =>
      if is_ErrorToken (Type_ token) then
        (("", Some (errors_New "No SAML payload found in response from Okta")), rest)
      else if is_tag_open (Type_ token) && (Data token =? "input")%string then
        let (inputName, inputValue) := scan_attributes (Attr token) "" "" in
        if (inputName =? "SAMLResponse")%string then ((inputValue, None), rest)
        else scan_tokens rest
      else scan_tokens rest
  end.

(* func extractSamlPayload(htmlDocument []byte) (string, error) *)
Definition extractSamlPayload (htmlDocument : string) : string * option error :=
  fst (scan_tokens (html_tokens htmlDocument)).

(* The URL AwsSamlLogin fetches (lines 177-194). *)
Definition samlUrl_of (oktaUrl samlEndpoint : URL) (oktaAuthResponse : OktaAuthResponse)
    : URL :=
  let samlUrl := URL_ResolveReference oktaUrl samlEndpoint in
  let query : Values := [] in
  let query := Values_Add "onetimetoken" (SessionToken oktaAuthResponse) query in
  set_RawQuery (Values_Encode query) samlUrl.

(* func AwsSamlLogin(oktaHref string, samlHref string,
                     oktaAuthResponse OktaAuthResponse) (string, error) *)
Definition AwsSamlLogin (oktaHref samlHref : string) (oktaAuthResponse : OktaAuthResponse)
    : M (string * option error) :=
  match url_Parse oktaHref with
  | inl e => ret ("", Some e)
  | inr oktaUrl =>
      match url_Parse samlHref with
      | inl e => ret ("", Some e)
      | inr samlEndpoint =>
          let samlUrl := samlUrl_of oktaUrl samlEndpoint oktaAuthResponse in
          (* cookiejar.New(nil) returns a nil error *)
          (r <- client_Get net (URL_String samlUrl) ;;
           match r with
           | HttpErr e => ret ("", Some e)
           | HttpOk resp =>
               if 300 <=? resp_StatusCode resp then
                 ret ("", Some (errors_New
                                  ("Could not get SAML payload" ++ resp_Status resp ++ ")")))
               else
                 let (body, err) := resp_Body resp in
                 match err with
                 | Some e => ret ("", Some e)
                 | None =>
                     let (data, err) := extractSamlPayload body in
                     match err with
                     | Some e => ret ("", Some e)
                     | None =>
                         let (saml, err) := base64_StdEncoding_DecodeString data in
                         match err with
                         | Some e => ret ("", Some e)
                         | None => ret (saml, None)
                         end
                     end
                 end
           end)%io
      end
  end.

(* func TotpFactorName(key string) string *)
Definition TotpFactorName (key : string) : string :=
  if (key =? "GOOGLE")%string then "Google Authenticator" else key.
End Okta.

(** ** A reference instance of [GoLib]

    The general results below hold for every instance.  To run the package
    on concrete bytes, this module implements a fragment of each library:
    JSON without [\u] escapes; HTML tags, attributes and text, without
    comments, doctypes, raw-text elements and character references; URLs
    without user information, percent-decoding and dot segments.  On the
    inputs used below the fragment and the Go libraries agree. *)

Module Ref.

Definition is_ws (c : ascii) : bool :=
  let n := nat_of_ascii c in
  (n =? 32)%nat || (n =? 9)%nat || (n =? 10)%nat || (n =? 13)%nat.

Fixpoint skip_ws (s : string) : string :=
  match s with
  | String c r => if is_ws c then skip_ws r else s
  | EmptyString => s
  end.

(* Splits before the first character satisfying [p]. *)
Fixpoint take_until (p : ascii -> bool) (s : string) : string * string :=
  match s with
  | EmptyString => (EmptyString, EmptyString)
  | String c r =>
      if p c then (EmptyString, s)
      else let (a, b) := take_until p r in (String c a, b)
  end.

Fixpoint starts_with (p s : string) : option string :=
  match p, s with
  | EmptyString, _ => Some s
  | String a p', String b s' => if (a =? b)%char then starts_with p' s' else None
  | _, EmptyString => None
  end.

(** *** JSON *)

Definition unescape_char (e : ascii) : option ascii :=
  let n := nat_of_ascii e in
  if (n =? 34)%nat then Some e                          (* quote *)
  else if (n =? 92)%nat then Some e                     (* backslash *)
  else if (e =? "/")%char then Some e
  else if (e =? "b")%char then Some (ascii_of_nat 8)
  else if (e =? "f")%char then Some (ascii_of_nat 12)
  else if (e =? "n")%char then Some (ascii_of_nat 10)
  else if (e =? "r")%char then Some (ascii_of_nat 13)
  else if (e =? "t")%char then Some (ascii_of_nat 9)
  else None.

(* The rest of a string literal after its opening quote. *)
Fixpoint string_body (s : string) : option (string * string) :=
  match s with
  | EmptyString => None
  | String c r =>
      let n := nat_of_ascii c in
      if (n =? 34)%nat then Some (EmptyString, r)
      else if (n =? 92)%nat then
        match r with
        | String e r' =>
            match unescape_char e, string_body r' with
            | Some x, Some (t, rest) => Some (String x t, rest)
            | _, _ => None
            end
        | EmptyString => None
        end
      else if (n <? 32)%nat then None
      else
        match string_body r with
        | Some (t, rest) => Some (String c t, rest)
        | None => None
        end
  end.

Definition digits1 (s : string) : option (string * string) :=
  let (d, r) := take_until (fun c => negb (is_digit c)) s in
  match d with
  | EmptyString => None
  | _ => Some (d, r)
  end.

Definition number_literal (s : string) : option (string * string) :=
  let (sign, s1) := match s with
                    | String "-" r => ("-", r)
                    | _ => (EmptyString, s)
                    end in
  let int_part :=
    match s1 with
    | String "0" r => Some ("0", r)
    | _ => digits1 s1
    end in
  match int_part with
  | None => None
  | Some (i, s2) =>
      let frac :=
        match s2 with
        | String "." r =>
            match digits1 r with
            | Some (d, r') => Some ("." ++ d, r')
            | None => None
            end
        | _ => Some (EmptyString, s2)
        end in
      match frac with
      | None => None
      | Some (f, s3) =>
          let whole := sign ++ i ++ f in
          match s3 with
          | String e r =>
              if (e =? "e")%char || (e =? "E")%char then
                let (sg, r1) :=
                  match r with
                  | String "+" r' => ("+", r')
                  | String "-" r' => ("-", r')
                  | _ => (EmptyString, r)
                  end in
                match digits1 r1 with
                | Some (d, r2) => Some (whole ++ String e sg ++ d, r2)
                | None => None
                end
              else Some (whole, s3)
          | EmptyString => Some (whole, s3)
          end
      end
  end.

Fixpoint value (fuel : nat) (s : string) : option (JSON * string) :=
  match fuel with
  | O => None
  | S f =>
      match skip_ws s with
      | EmptyString => None
      | String c r =>
          if (c =? "{")%char then
            match skip_ws r with
            | String "}" r' => Some (JObject [], r')
            | _ => members f r []
            end
          else if (c =? "[")%char then
            match skip_ws r with
            | String "]" r' => Some (JArray [], r')
            | _ => elems f r []
            end
          else if (nat_of_ascii c =? 34)%nat then
            match string_body r with
            | Some (t, rest) => Some (JString t, rest)
            | None => None
            end
          else
            match starts_with "true" (String c r), starts_with "false" (String c r),
                  starts_with "null" (String c r) with
            | Some rest, _, _ => Some (JBool true, rest)
            | _, Some rest, _ => Some (JBool false, rest)
            | _, _, Some rest => Some (JNull, rest)
            | _, _, _ =>
                match number_literal (String c r) with
                | Some (lit, rest) => Some (JNumber lit, rest)
                | None => None
                end
            end
      end
  end
with members (fuel : nat) (s : string) (acc : list (string * JSON))
    : option (JSON * string) :=
  match fuel with
  | O => None
  | S f =>
      match skip_ws s with
      | String q r =>
          if (nat_of_ascii q =? 34)%nat then
            match string_body r with
            | Some (k, r1) =>
                match skip_ws r1 with
                | String ":" r2 =>
                    match value f r2 with
                    | Some (v, r3) =>
                        match skip_ws r3 with
                        | String "," r4 => members f r4 (acc ++ [(k, v)])%list
                        | String "}" r4 => Some (JObject (acc ++ [(k, v)])%list, r4)
                        | _ => None
                        end
                    | None => None
                    end
                | _ => None
                end
            | None => None
            end
          else None
      | EmptyString => None
      end
  end
with elems (fuel : nat) (s : string) (acc : list JSON) : option (JSON * string) :=
  match fuel with
  | O => None
  | S f =>
      match value f s with
      | Some (v, r) =>
          match skip_ws r with
          | String "," r' => elems f r' (acc ++ [v])%list
          | String "]" r' => Some (JArray (acc ++ [v])%list, r')
          | _ => None
          end
      | None => None
      end
  end.

Definition json_parse (s : string) : option JSON :=
  match value (S (String.length s)) s with
  | Some (j, rest) =>
      match skip_ws rest with
      | EmptyString => Some j
      | _ => None
      end
  | None => None
  end.

Definition hex_lower (n : nat) : ascii :=
  nth n (list_ascii_of_string "0123456789abcdef") "0"%char.

Definition BS : string := String (ascii_of_nat 92) "".

Fixpoint quote_body (s : string) : string :=
  match s with
  | EmptyString => EmptyString
  | String c r =>
      let n := nat_of_ascii c in
      (if (n =? 34)%nat || (n =? 92)%nat then BS ++ String c ""
       else if (n =? 10)%nat then BS ++ "n"
       else if (n =? 13)%nat then BS ++ "r"
       else if (n =? 9)%nat then BS ++ "t"
       else if (n <? 32)%nat || (c =? "<")%char || (c =? ">")%char || (c =? "&")%char
       then BS ++ "u00" ++ String (hex_lower (n / 16)) (String (hex_lower (n mod 16)) "")
       else String c "") ++ quote_body r
  end.

Definition json_quote (s : string) : string := DQ ++ quote_body s ++ DQ.

(** *** HTML *)

Definition ends_name (c : ascii) : bool :=
  is_ws c || (c =? "/")%char || (c =? ">")%char.

Definition ends_key (c : ascii) : bool := ends_name c || (c =? "=")%char.

(* The attributes of a tag, up to and including its closing bracket;
   the boolean tells whether the tag closes itself. *)
Fixpoint attributes (fuel : nat) (s : string) (acc : list Attribute)
    : option (list Attribute * bool * string) :=
  match fuel with
  | O => None
  | S f =>
      match skip_ws s with
      | EmptyString => None
      | String ">" r => Some (acc, false, r)
      | String "/" (String ">" r) => Some (acc, true, r)
      | String "/" r => attributes f r acc
      | String c r =>
          let (key, r1) := take_until ends_key (String c r) in
          match skip_ws r1 with
          | String "=" r2 =>
              let r3 := skip_ws r2 in
              let (val, r4) :=
                match r3 with
                | String q r' =>
                    if (nat_of_ascii q =? 34)%nat || (nat_of_ascii q =? 39)%nat then
                      let (v, rest) := take_until (fun x => (x =? q)%char) r' in
                      (v, match rest with String _ t => t | EmptyString => EmptyString end)
                    else take_until (fun x => is_ws x || (x =? ">")%char) r3
                | EmptyString => (EmptyString, EmptyString)
                end in
              attributes f r4 (acc ++ [mkAttribute "" (lower_string key) val])%list
          | r2 => attributes f r2 (acc ++ [mkAttribute "" (lower_string key) ""])%list
          end
      end
  end.

Fixpoint tokens (fuel : nat) (s : string) : list Token :=
  match fuel with
  | O => []
  | S f =>
      match s with
      | EmptyString => []
      | String "<" (String "/" (String c r)) =>
          if is_alpha c then
            let (name, r1) := take_until ends_name (String c r) in
            match snd (take_until (fun x => (x =? ">")%char) r1) with
            | String _ r2 => mkToken EndTagToken (lower_string name) [] :: tokens f r2
            | EmptyString => []
            end
          else
            let (t, r1) := take_until (fun x => (x =? "<")%char) (String c r) in
            mkToken TextToken ("</" ++ t) [] :: tokens f r1
      | String "<" (String c r) =>
          if is_alpha c then
            let (name, r1) := take_until ends_name (String c r) in
            match attributes (S (String.length r1)) r1 [] with
            | Some (attrs, closes, r2) =>
                mkToken (if closes then SelfClosingTagToken else StartTagToken)
                        (lower_string name) attrs :: tokens f r2
            | None => []
            end
          else
            let (t, r1) := take_until (fun x => (x =? "<")%char) (String c r) in
            mkToken TextToken ("<" ++ t) [] :: tokens f r1
      | String "<" EmptyString => [mkToken TextToken "<" []]
      | String c r =>
          let (t, r1) := take_until (fun x => (x =? "<")%char) (String c r) in
          mkToken TextToken t [] :: tokens f r1
      end
  end.

Definition html_tokens (s : string) : list Token := tokens (S (String.length s)) s.

(** *** URLs *)

Definition is_ctl (c : ascii) : bool :=
  (nat_of_ascii c <? 32)%nat || (nat_of_ascii c =? 127)%nat.

Definition scheme_char (c : ascii) : bool :=
  is_alpha c || is_digit c || (c =? "+")%char || (c =? "-")%char || (c =? ".")%char.

(* The scheme and what follows its colon, when the text starts with one. *)
Definition getscheme (s : string) : string * string :=
  match s with
  | String c _ =>
      if is_alpha c then
        match take_until (fun x => negb (scheme_char x)) s with
        | (sch, String ":" rest) => (sch, rest)
        | _ => (EmptyString, s)
        end
      else (EmptyString, s)
  | EmptyString => (EmptyString, s)
  end.

Definition url_Parse (s : string) : error + URL :=
  if negb (all_chars (fun c => negb (is_ctl c)) s) then
    inl (lib_error "net/url: invalid control character in URL")
  else
    match s with
    | String ":" _ => inl (lib_error "missing protocol scheme")
    | _ =>
        let (u, frag) := break_at (fun c => (c =? "#")%char) s in
        let (rest, query) := break_at (fun c => (c =? "?")%char) u in
        let (scheme, rest) := getscheme rest in
        let force := match query with Some EmptyString => true | _ => false end in
        let rawquery := match query with Some q => q | None => EmptyString end in
        let fragment := match frag with Some f => f | None => EmptyString end in
        match starts_with "//" rest with
        | Some r =>
            let (host, path) := take_until (fun c => (c =? "/")%char) r in
            inr (mkURL (lower_string scheme) "" None host path "" force rawquery fragment)
        | None =>
            match scheme, rest with
            | String _ _, String c _ =>
                if (c =? "/")%char
                then inr (mkURL (lower_string scheme) "" None "" rest "" force rawquery
                                fragment)
                else inr (mkURL (lower_string scheme) rest None "" "" "" force rawquery
                                fragment)
            | _, _ =>
                inr (mkURL (lower_string scheme) "" None "" rest "" force rawquery fragment)
            end
        end
    end.

(* The text of [s] up to and including its last slash. *)
Fixpoint dir_prefix (s done pending : string) : string :=
  match s with
  | EmptyString => done
  | String c r =>
      if (c =? "/")%char then dir_prefix r (done ++ pending ++ "/") EmptyString
      else dir_prefix r done (pending ++ String c "")
  end.

Definition resolvePath (base ref : string) : string :=
  let full :=
    match ref with
    | EmptyString => base
    | String c _ => if (c =? "/")%char then ref else dir_prefix base "" "" ++ ref
    end in
  match full with
  | EmptyString => EmptyString
  | String c r => if (c =? "/")%char then full else "/" ++ full
  end.

Definition nonempty (s : string) : bool :=
  match s with EmptyString => false | _ => true end.

Definition URL_ResolveReference (u ref : URL) : URL :=
  let scheme := if nonempty (Scheme ref) then Scheme ref else Scheme u in
  if nonempty (Scheme ref) || nonempty (Host ref)
     || match User ref with Some _ => true | None => false end then
    mkURL scheme (Opaque ref) (User ref) (Host ref) (resolvePath (Path ref) "") ""
          (ForceQuery ref) (RawQuery ref) (Fragment ref)
  else if nonempty (Opaque ref) then
    mkURL scheme (Opaque ref) None "" "" "" (ForceQuery ref) (RawQuery ref) (Fragment ref)
  else
    let inherit := negb (nonempty (Path ref)) && negb (nonempty (RawQuery ref)) in
    mkURL scheme "" (User u) (Host u) (resolvePath (Path u) (Path ref)) ""
          (ForceQuery ref)
          (if inherit then RawQuery u else RawQuery ref)
          (if inherit && negb (nonempty (Fragment ref)) then Fragment u else Fragment ref).

Definition URL_String (u : URL) : string :=
  (if nonempty (Scheme u) then Scheme u ++ ":" else "")
  ++ (if nonempty (Opaque u) then Opaque u
      else
        (if (nonempty (Scheme u) || nonempty (Host u))
            && (nonempty (Host u) || nonempty (Path u))
         then "//" ++ Host u else "")
        ++ (if nonempty (Host u) && nonempty (Path u)
               && negb (match Path u with String "/" _ => true | _ => false end)
            then "/" else "")
        ++ Path u)
  ++ (if ForceQuery u || nonempty (RawQuery u) then "?" ++ RawQuery u else "")
  ++ (if nonempty (Fragment u) then "#" ++ Fragment u else "").

Definition lib : GoLib :=
  Build_GoLib json_quote json_parse html_tokens url_Parse URL_ResolveReference
              URL_String.
End Ref.


(** * Specification vocabulary

    Names for what the server does, used to state the properties. *)

(** What [makeRequest] returns when the server answers [r]. *)
Definition answer (r : HttpResult) : string * Z * option error :=
  fst (makeRequest (mkNetwork (fun _ _ _ => r) (fun _ _ => r)) "" "" []).

(** The request failed: [makeRequest] returns a non-nil error. *)
Definition failed (r : HttpResult) : bool :=
  match answer r with
  | (_, _, Some _) => true
  | (_, _, None) => false
  end.

(** The server answered 401 or 403. *)
Definition unauthorised (r : HttpResult) : bool :=
  match r with
  | HttpOk resp => (resp_StatusCode resp =? 401) || (resp_StatusCode resp =? 403)
  | HttpErr _ => false
  end.

(** The AuthSession a poll iteration decodes from the answer [r]. *)
Definition decoded {L : GoLib} (r : HttpResult) : OktaAuthResponse :=
  let '(body, yakStatus, _) := answer r in
  Unmarshal_OktaAuthResponse body (OktaAuthResponse_with yakStatus).

(** The poll was answered and the answer says the approval is pending. *)
Definition pending {L : GoLib} (r : HttpResult) : bool :=
  negb (failed r) && (Status (decoded r) =? "MFA_CHALLENGE")%string.

(** The poll was answered and the answer says SUCCESS. *)
Definition succeeded {L : GoLib} (r : HttpResult) : bool :=
  negb (failed r) && (Status (decoded r) =? "SUCCESS")%string.

(** The answer to the [n]-th request of the run, when it is a poll. *)
Definition poll_at (net : Network) (href pushJson : string) (n : nat) : HttpResult :=
  http_Post net n href pushJson.

(** What one iteration that does not leave the loop adds to the trace:
    a failed poll is followed by nothing, a pending one by a dot and a
    sleep of five seconds. *)
Definition poll_events {L : GoLib} (href pushJson : string) (r : HttpResult) : list Event :=
  if failed r then [EvPost href pushJson]
  else [EvPost href pushJson; EvStderr "."; EvSleep (5 * time_Second)].

(** The number of failed polls among the [k] requests from the [n0]-th on. *)
Fixpoint n_failed (poll : nat -> HttpResult) (n0 k : nat) : nat :=
  match k with
  | O => O
  | S k' => ((if failed (poll n0) then 1 else 0) + n_failed poll (S n0) k')%nat
  end.

(** The trace of [k] iterations that do not leave the loop. *)
Fixpoint run_events {L : GoLib} (href pushJson : string) (poll : nat -> HttpResult)
    (n0 k : nat) : list Event :=
  match k with
  | O => []
  | S k' => (poll_events href pushJson (poll n0)
             ++ run_events href pushJson poll (S n0) k')%list
  end.

(** The trace up to the first poll: the request that starts the push and
    the message on standard error. *)
Definition push_started (url pushJson : string) : list Event :=
  [EvPost url pushJson; EvStderr "Waiting for MFA response"].

(** A server that answers the requests of a run from a list, and
    [fallback] once the list is used up. *)
Definition scripted (answers : list HttpResult) (fallback : HttpResult) : Network :=
  mkNetwork (fun n _ _ => nth n answers fallback) (fun n _ => nth n answers fallback).

Definition http_200 (body : string) : HttpResult :=
  HttpOk (mkHttpResponse 200 "200 OK" (body, None)).

Definition http_status (code : Z) (status : string) : HttpResult :=
  HttpOk (mkHttpResponse code status ("", None)).

(* {"status":"<s>"} *)
Definition status_body (s : string) : string :=
  "{" ++ json_key "status" ++ DQ ++ s ++ DQ ++ "}".

(* {"_links":{"next":{"href":"<href>"}}} *)
Definition push_started_body (href : string) : string :=
  "{" ++ json_key "_links" ++ "{" ++ json_key "next" ++ "{" ++ json_key "href"
      ++ DQ ++ href ++ DQ ++ "}}}".

(* {"YakStatusCode":<n>} *)
Definition yak_status_body (n : string) : string :=
  "{" ++ json_key "YakStatusCode" ++ n ++ "}".

Definition pushJson_of {L : GoLib} (req : PushRequest) : string :=
  fst (Marshal_PushRequest req).

(** The poll link VerifyPush reads from the answer to its first request. *)
Definition poll_href {L : GoLib} (body : string) : string :=
  Href (PollLink (Push_Links (Unmarshal_PushRequestResponse body zero_PushRequestResponse))).

(** The value of the attribute named [key]: of the last one when several
    have that name, empty when none has. *)
Definition attr_value (key : string) (attrs : list Attribute) : string :=
  match find (fun a => (Key a =? key)%string) (rev attrs) with
  | Some a => Val a
  | None => ""
  end.

(** A start or self-closing [input] tag whose name is SAMLResponse. *)
Definition is_saml_input (t : Token) : bool :=
  is_tag_open (Type_ t) && (Data t =? "input")%string
  && (attr_value "name" (Attr t) =? "SAMLResponse")%string.

(** The tokens at which the scan ends. *)
Definition stops (t : Token) : bool := is_ErrorToken (Type_ t) || is_saml_input t.

Definition no_payload : error := errors_New "No SAML payload found in response from Okta".

Definition query_plain (c : ascii) : bool :=
  negb (is_query_sep c) && negb (c =? "=")%char.

(** ** Example inputs *)

Definition ex_url : string := "https://example.okta.com/api/v1/authn/factors/opf1/verify".
Definition ex_poll : string :=
  "https://example.okta.com/api/v1/authn/factors/opf1/transactions/v2/verify".
Definition ex_req : PushRequest := mkPushRequest "00lMJySRYNz3u_rKQrsLvLrzxiARgivP8FB_1gpmVb".
Definition ex_js : string := pushJson_of (L := Ref.lib) ex_req.
Definition down : HttpResult := HttpErr (lib_error "dial tcp: connection refused").
Definition ex_started : HttpResult := http_200 (push_started_body ex_poll).
Definition ex_pending : HttpResult := http_200 (status_body "MFA_CHALLENGE").
Definition ex_success : HttpResult := http_200 (status_body "SUCCESS").

(* Two pending answers, then SUCCESS. *)
Definition net_pending2 : Network :=
  scripted [ex_started; ex_pending; ex_pending; ex_success] down.

(* The poll link answers REJECTED. *)
Definition net_rejected : Network :=
  scripted [ex_started; http_200 (status_body "REJECTED")] ex_success.

(* Nothing answers once the push is started. *)
Definition net_down : Network := scripted [ex_started] down.

(* Five failed polls, then SUCCESS. *)
Definition net_five_down : Network :=
  scripted [ex_started; down; down; down; down; down; ex_success] down.

(* Five failed polls, one pending answer, one more failed poll; SUCCESS
   would be next. *)
Definition net_interleaved : Network :=
  scripted [ex_started; down; down; down; down; down; ex_pending; down] ex_success.

(* A server that answers 502 to everything. *)
Definition net_bad_gateway : Network := scripted [] (http_status 502 "502 Bad Gateway").

(* The first poll is answered 401, the second SUCCESS. *)
Definition net_unauthorised_poll : Network :=
  scripted [ex_started; http_status 401 "401 Unauthorized"; ex_success] down.

Definition ex_okta : string := "https://example.okta.com".
Definition ex_saml : string := "/app/amazon_aws/exk1a2b3c4/sso/saml?fromLogin=true".
Definition ex_session : OktaAuthResponse :=
  mkOktaAuthResponse "" "20111 i/Uq+w=&x" "" "SUCCESS" zero_AuthResponseEmbedded YAK_STATUS_OK.

(* <html><body><form method=post>
   <input type="hidden" name="SAMLResponse" value="QUJD"><input type="submit">
   </form></body></html>, on one line *)
Definition ex_html : string :=
  "<html><body><form method=post><input type=" ++ DQ ++ "hidden" ++ DQ
  ++ " name=" ++ DQ ++ "SAMLResponse" ++ DQ ++ " value=" ++ DQ ++ "QUJD" ++ DQ
  ++ "><input type=" ++ DQ ++ "submit" ++ DQ ++ "></form></body></html>".

(* <form><input type="hidden" name="SAMLResponse"></form> *)
Definition ex_html_no_value : string :=
  "<form><input type=" ++ DQ ++ "hidden" ++ DQ ++ " name=" ++ DQ ++ "SAMLResponse" ++ DQ
  ++ "></form>".

Definition net_no_value : Network := scripted [http_200 ex_html_no_value] down.

Definition ex_user : UserData := mkUserData "alice@example.com" "correct horse".

(* The server answers 200 with the body {"YakStatusCode":3}. *)
Definition net_status_in_body : Network := scripted [http_200 (yak_status_body "3")] down.

Definition ex_totp : TotpRequest :=
  mkTotpRequest "00lMJySRYNz3u_rKQrsLvLrzxiARgivP8FB_1gpmVb" "123456".

(* The server answers 200 with the body {"YakStatusCode":4}. *)
Definition net_status_4 : Network := scripted [http_200 (yak_status_body "4")] down.

(* The poll link answers {"status":"SUCCESS","yakstatuscode":1}. *)
Definition net_success_unauthorised : Network :=
  scripted [ex_started;
            http_200 ("{" ++ json_key "status" ++ DQ ++ "SUCCESS" ++ DQ ++ ","
                          ++ json_key "yakstatuscode" ++ "1}")] down.

(** * Results *)

(** ** The trace *)

Lemma n_requests_app (w w' : World) :
  n_requests (w ++ w')%list = (n_requests w + n_requests w')%nat.
Proof. unfold n_requests. now rewrite filter_app, length_app. Qed.

Lemma n_posts_app (w w' : World) :
  n_posts (w ++ w')%list = (n_posts w + n_posts w')%nat.
Proof. unfold n_posts. now rewrite filter_app, length_app. Qed.

Lemma makeRequest_eq (net : Network) (url body : string) (w : World) :
  makeRequest net url body w
  = (answer (http_Post net (n_requests w) url body), (w ++ [EvPost url body])%list).
Proof.
  unfold answer, makeRequest, bind, http_Post_call, ret; cbn [http_Post fst].
  destruct (http_Post net (n_requests w) url body) as [e | resp]; [reflexivity |].
  destruct ((resp_StatusCode resp =? 401) || (resp_StatusCode resp =? 403));
    [reflexivity |].
  destruct (300 <=? resp_StatusCode resp); [reflexivity |].
  destruct (resp_Body resp) as [b [e |]]; reflexivity.
Qed.

Lemma int_sub_small (er : Z) : 0 < er <= 6 -> int_sub er 1 = er - 1.
Proof.
  intros H. unfold int_sub, int_wrap.
  rewrite Z.mod_small; [lia |].
  change (2 ^ 63) with 9223372036854775808.
  change (2 ^ 64) with 18446744073709551616. lia.
Qed.

(** ** The transport helper *)

(** C5. How [makeRequest] classifies the outcome of its one POST: a
    transport error gives YAK_STATUS_NET_ERROR with an empty body; 401 and
    403 give YAK_STATUS_UNAUTHORISED; any other status of 300 or more
    gives YAK_STATUS_NET_ERROR; otherwise the body is read, a read failure
    gives YAK_STATUS_BAD_RESPONSE, and a body read in full is returned as
    it is with YAK_STATUS_OK and a nil error. *)
Theorem makeRequest_classifies (net : Network) (url body : string) (w : World) :
  let r := http_Post net (n_requests w) url body in
  let out := fst (makeRequest net url body w) in
  (forall e, r = HttpErr e -> out = ("", YAK_STATUS_NET_ERROR, Some e))
  /\ (forall resp, r = HttpOk resp ->
        resp_StatusCode resp = 401 \/ resp_StatusCode resp = 403 ->
        out = ("", YAK_STATUS_UNAUTHORISED,
               Some (errors_New ("Unauthorised (" ++ resp_Status resp ++ ")"))))
  /\ (forall resp, r = HttpOk resp ->
        300 <= resp_StatusCode resp ->
        resp_StatusCode resp <> 401 -> resp_StatusCode resp <> 403 ->
        out = ("", YAK_STATUS_NET_ERROR,
               Some (errors_New ("Network error (" ++ resp_Status resp ++ ")"))))
  /\ (forall resp b e, r = HttpOk resp ->
        resp_StatusCode resp < 300 ->
        resp_Body resp = (b, Some e) ->
        out = (b, YAK_STATUS_BAD_RESPONSE, Some e))
  /\ (forall resp b, r = HttpOk resp ->
        resp_StatusCode resp < 300 ->
        resp_Body resp = (b, None) ->
        out = (b, YAK_STATUS_OK, None))
  /\ snd (makeRequest net url body w) = (w ++ [EvPost url body])%list.
Proof.
  intros r out. unfold out. rewrite makeRequest_eq. cbn [fst snd]. fold r.
  unfold answer, makeRequest, bind, http_Post_call, ret. cbn [http_Post fst].
  repeat split.
  - intros e ->. reflexivity.
  - intros resp -> [H | H]; rewrite H; reflexivity.
  - intros resp -> H300 H401 H403.
    destruct (Z.eqb_spec (resp_StatusCode resp) 401); [contradiction |].
    destruct (Z.eqb_spec (resp_StatusCode resp) 403); [contradiction |].
    destruct (Z.leb_spec 300 (resp_StatusCode resp)); [reflexivity | lia].
  - intros resp b e -> Hlt Hb.
    destruct (Z.eqb_spec (resp_StatusCode resp) 401); [lia |].
    destruct (Z.eqb_spec (resp_StatusCode resp) 403); [lia |].
    destruct (Z.leb_spec 300 (resp_StatusCode resp)); [lia |].
    cbn [orb]. now rewrite Hb.
  - intros resp b -> Hlt Hb.
    destruct (Z.eqb_spec (resp_StatusCode resp) 401); [lia |].
    destruct (Z.eqb_spec (resp_StatusCode resp) 403); [lia |].
    destruct (Z.leb_spec 300 (resp_StatusCode resp)); [lia |].
    cbn [orb]. now rewrite Hb.
Qed.

Lemma makeRequest_classifies_witness :
  fst (makeRequest net_bad_gateway ex_url ex_js [])
  = ("", YAK_STATUS_NET_ERROR, Some (errors_New "Network error (502 Bad Gateway)")).
Proof.
  pose proof (makeRequest_classifies net_bad_gateway ex_url ex_js []) as H.
  cbv zeta in H. destruct H as (_ & _ & H & _).
  apply (H (mkHttpResponse 502 "502 Bad Gateway" ("", None)));
    [reflexivity | cbn; lia | discriminate | discriminate].
Defined.

Lemma answer_unauthorised (resp : HttpResponse) :
  unauthorised (HttpOk resp) = true ->
  answer (HttpOk resp)
  = ("", YAK_STATUS_UNAUTHORISED,
     Some (errors_New ("Unauthorised (" ++ resp_Status resp ++ ")"))).
Proof.
  unfold unauthorised, answer, makeRequest, bind, http_Post_call, ret.
  cbn [http_Post fst]. now intros ->.
Qed.

(** Every error [makeRequest] returns comes with a status other than
    YAK_STATUS_OK, and a nil error with YAK_STATUS_OK. *)
Lemma answer_status (r : HttpResult) :
  match answer r with
  | (_, st, Some _) => st <> YAK_STATUS_OK
  | (_, st, None) => st = YAK_STATUS_OK
  end.
Proof.
  unfold answer, makeRequest, bind, http_Post_call, ret. cbn [http_Post fst].
  destruct r as [e | resp]; [discriminate |].
  destruct ((resp_StatusCode resp =? 401) || (resp_StatusCode resp =? 403));
    [discriminate |].
  destruct (300 <=? resp_StatusCode resp); [discriminate |].
  destruct (resp_Body resp) as [b [e |]]; [discriminate | reflexivity].
Qed.

(** ** The single-request calls *)

Lemma Authenticate_eq {L : GoLib} (net : Network) (oktaHref : string) (userData : UserData)
    (w : World) (oktaUrl : URL) :
  url_Parse oktaHref = inr oktaUrl ->
  let target := URL_String (URL_ResolveReference oktaUrl primaryAuthEndpoint) in
  let body := fst (Marshal_UserData userData) in
  Authenticate net oktaHref userData w
  = (match answer (http_Post net (n_requests w) target body) with
     | (_, st, Some e) => (OktaAuthResponse_with st, Some e)
     | (b, _, None) =>
         (Unmarshal_OktaAuthResponse b (OktaAuthResponse_with YAK_STATUS_OK), None)
     end, (w ++ [EvPost target body])%list).
Proof.
  intros Hu target body. unfold Authenticate, Marshal_UserData. rewrite Hu.
  unfold bind. rewrite makeRequest_eq. fold target.
  unfold body, Marshal_UserData. cbn [fst].
  now destruct (answer _) as [[b st] [e |]].
Qed.

Lemma VerifyTotp_eq {L : GoLib} (net : Network) (url : string) (t : TotpRequest) (w : World) :
  let body := fst (Marshal_TotpRequest t) in
  VerifyTotp net url t w
  = (match answer (http_Post net (n_requests w) url body) with
     | (_, st, Some e) => (OktaAuthResponse_with st, Some e)
     | (b, _, None) =>
         (Unmarshal_OktaAuthResponse b (OktaAuthResponse_with YAK_STATUS_OK), None)
     end, (w ++ [EvPost url body])%list).
Proof.
  intros body. unfold VerifyTotp, Marshal_TotpRequest.
  unfold bind. rewrite makeRequest_eq.
  unfold body, Marshal_TotpRequest. cbn [fst].
  now destruct (answer _) as [[b st] [e |]].
Qed.

Lemma VerifyPush_refused {L : GoLib} (net : Network) (fuel : nat) (url : string)
    (req : PushRequest) (w : World) (b : string) (st : Z) (e : error) :
  answer (http_Post net (n_requests w) url (pushJson_of req)) = (b, st, Some e) ->
  VerifyPush net fuel url req w
  = Some ((OktaAuthResponse_with st, Some e), (w ++ [EvPost url (pushJson_of req)])%list).
Proof.
  unfold VerifyPush, pushJson_of, Marshal_PushRequest. cbn [fst]. intros H.
  now rewrite makeRequest_eq, H.
Qed.

(** ** The polling loop, one iteration at a time *)

Section Polling.
Context {L : GoLib}.
Variable net : Network.
Variables href pushJson : string.

Lemma failed_answer (r : HttpResult) :
  failed r = true -> exists b st e, answer r = (b, st, Some e).
Proof.
  unfold failed. destruct (answer r) as [[b st] [e |]]; [| discriminate].
  intros _. now exists b, st, e.
Qed.

Lemma not_failed_answer (r : HttpResult) :
  failed r = false -> exists b st, answer r = (b, st, None).
Proof.
  unfold failed. destruct (answer r) as [[b st] [e |]]; [discriminate |].
  intros _. now exists b, st.
Qed.

Lemma loop_failed_step (fuel : nat) (er : Z) (w : World) :
  failed (poll_at net href pushJson (n_requests w)) = true ->
  1 < er <= 6 ->
  poll_loop net (S fuel) href pushJson er w
  = poll_loop net fuel href pushJson (er - 1) (w ++ [EvPost href pushJson])%list.
Proof.
  intros Hf Her. destruct (failed_answer _ Hf) as (b & st & e & Ha).
  unfold poll_at in Ha. cbn [poll_loop]. rewrite makeRequest_eq, Ha.
  rewrite int_sub_small by lia.
  destruct (Z.eqb_spec (er - 1) 0); [lia | reflexivity].
Qed.

Lemma loop_last_failure (fuel : nat) (w : World) (b : string) (st : Z) (e : error) :
  answer (poll_at net href pushJson (n_requests w)) = (b, st, Some e) ->
  poll_loop net (S fuel) href pushJson 1 w
  = Some ((OktaAuthResponse_with st, Some e),
          (w ++ [EvPost href pushJson;
                 EvStderr (LF ++ "Too many network errors, aborting...")])%list).
Proof.
  intros Ha. unfold poll_at in Ha. cbn [poll_loop]. rewrite makeRequest_eq, Ha.
  cbn. now rewrite <- app_assoc.
Qed.

Lemma loop_pending_step (fuel : nat) (er : Z) (w : World) :
  pending (poll_at net href pushJson (n_requests w)) = true ->
  poll_loop net (S fuel) href pushJson er w
  = poll_loop net fuel href pushJson er
      (w ++ [EvPost href pushJson; EvStderr "."; EvSleep (5 * time_Second)])%list.
Proof.
  unfold pending, decoded. intros Hp. apply andb_prop in Hp as [Hf Hs].
  apply negb_true_iff in Hf. destruct (not_failed_answer _ Hf) as (b & st & Ha).
  rewrite Ha in Hs. unfold poll_at in Ha. cbn [poll_loop].
  rewrite makeRequest_eq, Ha. rewrite Hs. cbn [negb].
  unfold eprint, time_Sleep, emit. now rewrite <- !app_assoc.
Qed.

Lemma loop_success (fuel : nat) (er : Z) (w : World) :
  succeeded (poll_at net href pushJson (n_requests w)) = true ->
  poll_loop net (S fuel) href pushJson er w
  = Some ((decoded (poll_at net href pushJson (n_requests w)), None),
          (w ++ [EvPost href pushJson; EvStderr LF])%list).
Proof.
  unfold succeeded, decoded. intros Hp. apply andb_prop in Hp as [Hf Hs].
  apply negb_true_iff in Hf. destruct (not_failed_answer _ Hf) as (b & st & Ha).
  rewrite Ha in Hs |- *. unfold poll_at in Ha. cbn [poll_loop].
  rewrite makeRequest_eq, Ha. rewrite Hs.
  apply String.eqb_eq in Hs. rewrite Hs. cbn.
  now rewrite <- app_assoc.
Qed.

Lemma loop_bad_status (fuel : nat) (er : Z) (w : World) :
  let r := poll_at net href pushJson (n_requests w) in
  failed r = false ->
  Status (decoded r) <> "MFA_CHALLENGE" ->
  Status (decoded r) <> "SUCCESS" ->
  poll_loop net (S fuel) href pushJson er w
  = Some ((set_YakStatusCode YAK_STATUS_BAD_RESPONSE (decoded r),
           Some (errors_New ("Bad status from Okta API: " ++ Status (decoded r)))),
          (w ++ [EvPost href pushJson; EvStderr LF])%list).
Proof.
  intros r Hf Hm Hs. subst r. unfold decoded in *.
  destruct (not_failed_answer _ Hf) as (b & st & Ha).
  rewrite Ha in Hm, Hs |- *. unfold poll_at in Ha. cbn [poll_loop].
  rewrite makeRequest_eq, Ha.
  apply String.eqb_neq in Hm, Hs. rewrite Hm, Hs. cbn.
  now rewrite <- app_assoc.
Qed.

(** [k] iterations that do not leave the loop: each failed poll takes one
    from the budget, a pending answer leaves it as it is. *)
Lemma loop_run (k : nat) :
  forall (fuel : nat) (er : Z) (w : World),
    (forall i, (i < k)%nat ->
       let r := poll_at net href pushJson (n_requests w + i) in
       failed r || pending r = true) ->
    Z.of_nat (n_failed (poll_at net href pushJson) (n_requests w) k) < er <= 6 ->
    poll_loop net (k + fuel) href pushJson er w
    = poll_loop net fuel href pushJson
        (er - Z.of_nat (n_failed (poll_at net href pushJson) (n_requests w) k))
        (w ++ run_events href pushJson (poll_at net href pushJson) (n_requests w) k)%list
    /\ n_requests (w ++ run_events href pushJson (poll_at net href pushJson)
                                   (n_requests w) k)%list
       = (n_requests w + k)%nat.
Proof.
  induction k as [| k IH]; intros fuel er w Hnt Her.
  - cbn. rewrite Z.sub_0_r, app_nil_r. split; [reflexivity | lia].
  - pose proof (Hnt 0%nat ltac:(lia)) as H0. cbn zeta in H0.
    rewrite Nat.add_0_r in H0.
    cbn [n_failed run_events] in *. unfold poll_events.
    assert (Hnext : forall w1, n_requests w1 = S (n_requests w) ->
              forall i, (i < k)%nat ->
                let r := poll_at net href pushJson (n_requests w1 + i) in
                failed r || pending r = true).
    { intros w1 Hw1 i Hi. rewrite Hw1.
      specialize (Hnt (S i) ltac:(lia)). cbn zeta in Hnt.
      now replace (S (n_requests w) + i)%nat with (n_requests w + S i)%nat by lia. }
    destruct (failed (poll_at net href pushJson (n_requests w))) eqn:Hf.
    + set (w1 := (w ++ [EvPost href pushJson])%list).
      assert (Hw1 : n_requests w1 = S (n_requests w)).
      { unfold w1. rewrite n_requests_app. cbn. lia. }
      change (S k + fuel)%nat with (S (k + fuel)).
      rewrite loop_failed_step by (trivial; lia). fold w1.
      destruct (IH fuel (er - 1) w1 (Hnext w1 Hw1)) as [E N].
      { rewrite Hw1. lia. }
      rewrite Hw1 in E, N. rewrite E. unfold w1. rewrite <- !app_assoc. cbn [app].
      unfold w1 in N. rewrite <- app_assoc in N. cbn [app] in N.
      split; [f_equal; lia | lia].
    + cbn [orb] in H0.
      set (w1 := (w ++ [EvPost href pushJson; EvStderr "."; EvSleep (5 * time_Second)])%list).
      assert (Hw1 : n_requests w1 = S (n_requests w)).
      { unfold w1. rewrite n_requests_app. cbn. lia. }
      change (S k + fuel)%nat with (S (k + fuel)).
      rewrite loop_pending_step by trivial. fold w1.
      destruct (IH fuel er w1 (Hnext w1 Hw1)) as [E N].
      { rewrite Hw1. lia. }
      rewrite Hw1 in E, N. rewrite E. unfold w1. rewrite <- !app_assoc. cbn [app].
      unfold w1 in N. rewrite <- app_assoc in N. cbn [app] in N.
      split; [f_equal; lia | lia].
Qed.

End Polling.

(** ** Runs of one kind *)

Lemma answer_HttpErr (e : error) : answer (HttpErr e) = ("", YAK_STATUS_NET_ERROR, Some e).
Proof. reflexivity. Qed.

Lemma failed_HttpErr (e : error) : failed (HttpErr e) = true.
Proof. reflexivity. Qed.

Lemma pending_not_failed {L : GoLib} (r : HttpResult) : pending r = true -> failed r = false.
Proof.
  unfold pending. intros H. apply andb_prop in H as [H _]. now apply negb_true_iff in H.
Qed.

Lemma run_all_failed {L : GoLib} (href pushJson : string) (poll : nat -> HttpResult) (k : nat) :
  forall n0,
    (forall i, (i < k)%nat -> failed (poll (n0 + i)%nat) = true) ->
    n_failed poll n0 k = k
    /\ run_events href pushJson poll n0 k = repeat (EvPost href pushJson) k.
Proof.
  induction k as [| k IH]; intros n0 H; [now split |].
  cbn [n_failed run_events repeat]. unfold poll_events.
  pose proof (H 0%nat ltac:(lia)) as H0. rewrite Nat.add_0_r in H0. rewrite H0.
  destruct (IH (S n0)) as [E1 E2].
  { intros i Hi. specialize (H (S i) ltac:(lia)).
    now replace (S n0 + i)%nat with (n0 + S i)%nat by lia. }
  rewrite E1, E2. now split.
Qed.

Lemma run_all_pending {L : GoLib} (href pushJson : string) (poll : nat -> HttpResult)
    (k : nat) :
  forall n0,
    (forall i, (i < k)%nat -> pending (poll (n0 + i)%nat) = true) ->
    n_failed poll n0 k = 0%nat
    /\ run_events href pushJson poll n0 k
       = List.concat (repeat [EvPost href pushJson; EvStderr "."; EvSleep (5 * time_Second)] k).
Proof.
  induction k as [| k IH]; intros n0 H; [now split |].
  cbn [n_failed run_events repeat List.concat]. unfold poll_events.
  pose proof (H 0%nat ltac:(lia)) as H0. rewrite Nat.add_0_r in H0.
  rewrite (pending_not_failed _ H0).
  destruct (IH (S n0)) as [E1 E2].
  { intros i Hi. specialize (H (S i) ltac:(lia)).
    now replace (S n0 + i)%nat with (n0 + S i)%nat by lia. }
  rewrite E1, E2. now split.
Qed.

Lemma n_failed_snoc (poll : nat -> HttpResult) (k : nat) :
  forall n0,
    n_failed poll n0 (S k)
    = (n_failed poll n0 k + (if failed (poll (n0 + k)%nat) then 1 else 0))%nat.
Proof.
  induction k as [| k IH]; intros n0.
  - cbn [n_failed]. replace (n0 + 0)%nat with n0 by lia.
    destruct (failed (poll n0)); lia.
  - change (n_failed poll n0 (S (S k)))
      with ((if failed (poll n0) then 1 else 0) + n_failed poll (S n0) (S k))%nat.
    rewrite IH. cbn [n_failed].
    replace (S n0 + k)%nat with (n0 + S k)%nat by lia.
    destruct (failed (poll n0)), (failed (poll (n0 + S k)%nat)); lia.
Qed.

Lemma run_events_snoc {L : GoLib} (href js : string) (poll : nat -> HttpResult) (k : nat) :
  forall n0,
    run_events href js poll n0 (S k)
    = (run_events href js poll n0 k ++ poll_events href js (poll (n0 + k)%nat))%list.
Proof.
  induction k as [| k IH]; intros n0.
  - cbn [run_events]. replace (n0 + 0)%nat with n0 by lia. now rewrite app_nil_r.
  - change (run_events href js poll n0 (S (S k)))
      with (poll_events href js (poll n0) ++ run_events href js poll (S n0) (S k))%list.
    rewrite IH. cbn [run_events].
    replace (S n0 + k)%nat with (n0 + S k)%nat by lia. now rewrite app_assoc.
Qed.

(** ** VerifyPush *)

Section Push.
Context {L : GoLib}.
Variable net : Network.
Variable url : string.
Variable req : PushRequest.
Variable w0 : World.
Variable body0 : string.
Variable st0 : Z.

(** The request that starts the push is answered. *)
Hypothesis started :
  answer (http_Post net (n_requests w0) url (pushJson_of req)) = (body0, st0, None).

Let first : nat := S (n_requests w0).
Let href : string := poll_href body0.
Let js : string := pushJson_of req.
Let poll : nat -> HttpResult := poll_at net href js.

Lemma VerifyPush_started (fuel : nat) :
  VerifyPush net fuel url req w0
  = poll_loop net fuel href js 6 (w0 ++ push_started url js)%list.
Proof.
  unfold VerifyPush, Marshal_PushRequest.
  change (fst (Marshal_PushRequest req)) with js in started.
  unfold js, pushJson_of, Marshal_PushRequest in started. cbn [fst] in started.
  rewrite makeRequest_eq, started.
  unfold eprint, emit, push_started, href, poll_href, js, pushJson_of, Marshal_PushRequest.
  cbn [fst]. now rewrite <- app_assoc.
Qed.

Lemma n_requests_started : n_requests (w0 ++ push_started url js)%list = first.
Proof. rewrite n_requests_app. unfold first. cbn. lia. Qed.

Lemma VerifyPush_run (k fuel : nat) :
  (forall i, (i < k)%nat -> failed (poll (first + i)%nat) || pending (poll (first + i)%nat) = true) ->
  (n_failed poll first k < 6)%nat ->
  VerifyPush net (k + fuel) url req w0
  = poll_loop net fuel href js (6 - Z.of_nat (n_failed poll first k))
      (w0 ++ push_started url js ++ run_events href js poll first k)%list
  /\ n_requests (w0 ++ push_started url js ++ run_events href js poll first k)%list
     = (first + k)%nat.
Proof.
  intros Hnt Hlt. rewrite VerifyPush_started.
  destruct (loop_run net href js k fuel 6 (w0 ++ push_started url js)%list) as [E N];
    rewrite ?n_requests_started; try (fold poll; lia).
  - intros i Hi. apply Hnt, Hi.
  - rewrite n_requests_started in E, N. fold poll in E, N.
    rewrite <- app_assoc in E, N. now split.
Qed.

End Push.

Lemma n_posts_run_events {L : GoLib} (href js : string) (poll : nat -> HttpResult) (k : nat) :
  forall n0, n_posts (run_events href js poll n0 k) = k.
Proof.
  induction k as [| k IH]; intros n0; [reflexivity |].
  cbn [run_events]. rewrite n_posts_app, IH. unfold poll_events.
  now destruct (failed (poll n0)).
Qed.

Lemma n_posts_pending_rounds (href js : string) (k : nat) :
  n_posts (List.concat
             (repeat [EvPost href js; EvStderr "."; EvSleep (5 * time_Second)] k)) = k.
Proof.
  induction k as [| k IH]; [reflexivity |].
  cbn [repeat List.concat]. rewrite n_posts_app, IH. reflexivity.
Qed.

(** ** How VerifyPush ends *)

Section PushEnds.
Context {L : GoLib}.
Variable net : Network.
Variable url : string.
Variable req : PushRequest.
Variable w0 : World.
Variable body0 : string.
Variable st0 : Z.

Hypothesis started :
  answer (http_Post net (n_requests w0) url (pushJson_of req)) = (body0, st0, None).

Let first : nat := S (n_requests w0).
Let href : string := poll_href body0.
Let js : string := pushJson_of req.
Let poll : nat -> HttpResult := poll_at net href js.

Variables k fuel : nat.

(** The first [k] polls do not leave the loop. *)
Hypothesis prefix :
  forall i, (i < k)%nat -> failed (poll (first + i)%nat) || pending (poll (first + i)%nat) = true.
Hypothesis enough : (k < fuel)%nat.

Lemma VerifyPush_reaches :
  (n_failed poll first k < 6)%nat ->
  VerifyPush net fuel url req w0
  = poll_loop net (S (fuel - k - 1)) href js (6 - Z.of_nat (n_failed poll first k))
      (w0 ++ push_started url js ++ run_events href js poll first k)%list
  /\ n_requests (w0 ++ push_started url js ++ run_events href js poll first k)%list
     = (first + k)%nat.
Proof.
  intros Hlt.
  destruct (VerifyPush_run net url req w0 body0 st0 started k (S (fuel - k - 1)) prefix Hlt)
    as [E N].
  replace (k + S (fuel - k - 1))%nat with fuel in E by lia. now split.
Qed.

Lemma VerifyPush_aborts (b : string) (st : Z) (e : error) :
  n_failed poll first k = 5%nat ->
  answer (poll (first + k)%nat) = (b, st, Some e) ->
  VerifyPush net fuel url req w0
  = Some ((OktaAuthResponse_with st, Some e),
          (w0 ++ push_started url js ++ run_events href js poll first k
              ++ [EvPost href js; EvStderr (LF ++ "Too many network errors, aborting...")])%list).
Proof.
  intros H5 Ha. destruct VerifyPush_reaches as [E N]; [lia |].
  rewrite E, H5. change (6 - Z.of_nat 5) with 1.
  rewrite (loop_last_failure net href js _ _ b st e) by (rewrite N; exact Ha).
  now rewrite <- !app_assoc.
Qed.

Lemma VerifyPush_succeeds :
  (n_failed poll first k < 6)%nat ->
  succeeded (poll (first + k)%nat) = true ->
  VerifyPush net fuel url req w0
  = Some ((decoded (poll (first + k)%nat), None),
          (w0 ++ push_started url js ++ run_events href js poll first k
              ++ [EvPost href js; EvStderr LF])%list).
Proof.
  intros Hlt Hs. destruct (VerifyPush_reaches Hlt) as [E N].
  rewrite E, loop_success; rewrite N; [| exact Hs].
  now rewrite <- !app_assoc.
Qed.

Lemma VerifyPush_bad :
  (n_failed poll first k < 6)%nat ->
  failed (poll (first + k)%nat) = false ->
  Status (decoded (poll (first + k)%nat)) <> "MFA_CHALLENGE" ->
  Status (decoded (poll (first + k)%nat)) <> "SUCCESS" ->
  VerifyPush net fuel url req w0
  = Some ((set_YakStatusCode YAK_STATUS_BAD_RESPONSE (decoded (poll (first + k)%nat)),
           Some (errors_New ("Bad status from Okta API: "
                             ++ Status (decoded (poll (first + k)%nat))))),
          (w0 ++ push_started url js ++ run_events href js poll first k
              ++ [EvPost href js; EvStderr LF])%list).
Proof.
  intros Hlt Hf Hm Hs. destruct (VerifyPush_reaches Hlt) as [E N].
  rewrite E, loop_bad_status; rewrite N; trivial.
  now rewrite <- !app_assoc.
Qed.

End PushEnds.

(** ** The claims about polling *)

(** C1 (as the code has it).  Failed polls are counted over the whole
    loop and the count is never restored by an answered poll: after any
    polls that kept the loop going and of which five failed, the next
    transport failure ends VerifyPush with YAK_STATUS_NET_ERROR and that
    failure's error, and nothing is requested after it.  In particular six
    failures in a row abort after the sixth poll (no seventh), and five
    failures followed by a SUCCESS answer return that answer with a nil
    error. *)
Theorem VerifyPush_error_budget {L : GoLib} (net : Network) (url : string) (req : PushRequest)
    (w0 : World) (body0 : string) (st0 : Z) :
  let js := pushJson_of req in
  let href := poll_href body0 in
  let first := S (n_requests w0) in
  let poll := poll_at net href js in
  let too_many := EvStderr (LF ++ "Too many network errors, aborting...") in
  answer (http_Post net (n_requests w0) url js) = (body0, st0, None) ->
  (forall (k fuel : nat) (e : error),
      (forall i, (i < k)%nat ->
         failed (poll (first + i)%nat) || pending (poll (first + i)%nat) = true) ->
      n_failed poll first k = 5%nat ->
      poll (first + k)%nat = HttpErr e ->
      (k < fuel)%nat ->
      VerifyPush net fuel url req w0
      = Some ((OktaAuthResponse_with YAK_STATUS_NET_ERROR, Some e),
              (w0 ++ push_started url js ++ run_events href js poll first k
                  ++ [EvPost href js; too_many])%list))
  /\ (forall (fuel : nat) (es : nat -> error),
        (forall i, (i < 6)%nat -> poll (first + i)%nat = HttpErr (es i)) ->
        (6 <= fuel)%nat ->
        VerifyPush net fuel url req w0
        = Some ((OktaAuthResponse_with YAK_STATUS_NET_ERROR, Some (es 5%nat)),
                (w0 ++ push_started url js ++ repeat (EvPost href js) 6 ++ [too_many])%list))
  /\ (forall (fuel : nat) (es : nat -> error),
        (forall i, (i < 5)%nat -> poll (first + i)%nat = HttpErr (es i)) ->
        succeeded (poll (first + 5)%nat) = true ->
        (6 <= fuel)%nat ->
        VerifyPush net fuel url req w0
        = Some ((decoded (poll (first + 5)%nat), None),
                (w0 ++ push_started url js ++ repeat (EvPost href js) 5
                    ++ [EvPost href js; EvStderr LF])%list)).
Proof.
  intros js href first poll too_many Hstart.
  assert (Hfive : forall es : nat -> error,
             (forall i, (i < 5)%nat -> poll (first + i)%nat = HttpErr (es i)) ->
             (forall i, (i < 5)%nat ->
                failed (poll (first + i)%nat) || pending (poll (first + i)%nat) = true)
             /\ n_failed poll first 5 = 5%nat
             /\ run_events href js poll first 5 = repeat (EvPost href js) 5).
  { intros es H.
    assert (Hf : forall i, (i < 5)%nat -> failed (poll (first + i)%nat) = true).
    { intros i Hi. rewrite (H i Hi). apply failed_HttpErr. }
    destruct (run_all_failed href js poll 5 first Hf) as [E1 E2].
    split; [| now split]. intros i Hi. now rewrite (Hf i Hi). }
  assert (Hgen : forall (k fuel : nat) (e : error),
      (forall i, (i < k)%nat ->
         failed (poll (first + i)%nat) || pending (poll (first + i)%nat) = true) ->
      n_failed poll first k = 5%nat ->
      poll (first + k)%nat = HttpErr e ->
      (k < fuel)%nat ->
      VerifyPush net fuel url req w0
      = Some ((OktaAuthResponse_with YAK_STATUS_NET_ERROR, Some e),
              (w0 ++ push_started url js ++ run_events href js poll first k
                  ++ [EvPost href js; too_many])%list)).
  { intros k fuel e Hpre H5 Hk Hfuel.
    apply (VerifyPush_aborts net url req w0 body0 st0 Hstart k fuel Hpre Hfuel "");
      [exact H5 |].
    fold js href poll first. rewrite Hk. apply answer_HttpErr. }
  split; [exact Hgen | split].
  - intros fuel es H Hfuel.
    destruct (Hfive es) as (Hpre & H5 & Hev); [intros i Hi; apply H; lia |].
    rewrite (Hgen 5%nat fuel (es 5%nat) Hpre H5 (H 5%nat ltac:(lia)) ltac:(lia)).
    rewrite Hev. reflexivity.
  - intros fuel es H Hs Hfuel.
    destruct (Hfive es H) as (Hpre & H5 & Hev).
    rewrite (VerifyPush_succeeds net url req w0 body0 st0 Hstart 5 fuel Hpre ltac:(lia));
      fold js href poll first; [| rewrite H5; lia | exact Hs].
    rewrite Hev. reflexivity.
Qed.

Lemma VerifyPush_error_budget_witness :
  VerifyPush (L := Ref.lib) net_down 6 ex_url ex_req []
  = Some ((OktaAuthResponse_with YAK_STATUS_NET_ERROR,
           Some (lib_error "dial tcp: connection refused")),
          [EvPost ex_url ex_js; EvStderr "Waiting for MFA response";
           EvPost ex_poll ex_js; EvPost ex_poll ex_js; EvPost ex_poll ex_js;
           EvPost ex_poll ex_js; EvPost ex_poll ex_js; EvPost ex_poll ex_js;
           EvStderr (LF ++ "Too many network errors, aborting...")])
  /\ VerifyPush (L := Ref.lib) net_five_down 6 ex_url ex_req []
     = Some ((decoded (L := Ref.lib) ex_success, None),
             [EvPost ex_url ex_js; EvStderr "Waiting for MFA response";
              EvPost ex_poll ex_js; EvPost ex_poll ex_js; EvPost ex_poll ex_js;
              EvPost ex_poll ex_js; EvPost ex_poll ex_js; EvPost ex_poll ex_js;
              EvStderr LF]).
Proof.
  split.
  - pose proof (VerifyPush_error_budget (L := Ref.lib) net_down ex_url ex_req []
                  (push_started_body ex_poll) YAK_STATUS_OK) as H.
    cbv zeta in H. destruct H as (_ & H & _); [reflexivity |].
    specialize (H 6%nat (fun _ => lib_error "dial tcp: connection refused")).
    rewrite H.
    + vm_compute. reflexivity.
    + intros i Hi. do 6 (destruct i as [| i]; [reflexivity |]). lia.
    + lia.
  - pose proof (VerifyPush_error_budget (L := Ref.lib) net_five_down ex_url ex_req []
                  (push_started_body ex_poll) YAK_STATUS_OK) as H.
    cbv zeta in H. destruct H as (_ & _ & H); [reflexivity |].
    specialize (H 6%nat (fun _ => lib_error "dial tcp: connection refused")).
    rewrite H.
    + vm_compute. reflexivity.
    + intros i Hi. do 5 (destruct i as [| i]; [reflexivity |]). lia.
    + reflexivity.
    + lia.
Defined.

(** C1 as stated does not hold: the pending answer after five failures
    does not give the loop six further failures; the next single failure
    aborts it, although SUCCESS was the answer to the poll after. *)
Lemma VerifyPush_consecutive_counterexample :
  pending (L := Ref.lib) ex_pending = true
  /\ succeeded (L := Ref.lib) ex_success = true
  /\ VerifyPush (L := Ref.lib) net_interleaved 100 ex_url ex_req []
     = Some ((OktaAuthResponse_with YAK_STATUS_NET_ERROR,
              Some (lib_error "dial tcp: connection refused")),
             [EvPost ex_url ex_js; EvStderr "Waiting for MFA response";
              EvPost ex_poll ex_js; EvPost ex_poll ex_js; EvPost ex_poll ex_js;
              EvPost ex_poll ex_js; EvPost ex_poll ex_js;
              EvPost ex_poll ex_js; EvStderr "."; EvSleep (5 * time_Second);
              EvPost ex_poll ex_js;
              EvStderr (LF ++ "Too many network errors, aborting...")]).
Proof. repeat split; vm_compute; reflexivity. Qed.

(** C2. When the poll link answers MFA_CHALLENGE exactly [N] times and
    then SUCCESS, with no failed request, VerifyPush returns (given at
    least [N+1] iterations) the AuthSession decoded from the last answer
    with a nil error; the trace is the starting request, then [N] rounds
    of poll, dot and five-second sleep, then the last poll and a newline:
    [N+1] polls in all. *)
Theorem VerifyPush_pending_then_success {L : GoLib} (net : Network) (url : string)
    (req : PushRequest) (w0 : World) (body0 : string) (st0 : Z) (N fuel : nat) :
  let js := pushJson_of req in
  let href := poll_href body0 in
  let first := S (n_requests w0) in
  let polls := (List.concat (repeat [EvPost href js; EvStderr "."; EvSleep (5 * time_Second)] N)
                ++ [EvPost href js; EvStderr LF])%list in
  answer (http_Post net (n_requests w0) url js) = (body0, st0, None) ->
  (forall i, (i < N)%nat -> pending (poll_at net href js (first + i)) = true) ->
  succeeded (poll_at net href js (first + N)) = true ->
  (N < fuel)%nat ->
  VerifyPush net fuel url req w0
  = Some ((decoded (poll_at net href js (first + N)), None),
          (w0 ++ push_started url js ++ polls)%list)
  /\ Status (decoded (poll_at net href js (first + N))) = "SUCCESS"
  /\ n_posts polls = (N + 1)%nat
  /\ count_occ Z.eq_dec
       (flat_map (fun e => match e with EvSleep d => [d] | _ => [] end) polls)
       (5 * time_Second) = N.
Proof.
  intros js href first polls Hstart Hpend Hsucc Hfuel.
  destruct (run_all_pending href js (poll_at net href js) N first Hpend) as [Hnf Hev].
  split; [| split; [| split]].
  - rewrite (VerifyPush_succeeds net url req w0 body0 st0 Hstart N fuel);
      fold js href first; trivial.
    + rewrite Hev. reflexivity.
    + intros i Hi. rewrite (Hpend i Hi). apply orb_true_r.
    + rewrite Hnf. lia.
  - unfold succeeded in Hsucc. apply andb_prop in Hsucc as [_ Hs].
    now apply String.eqb_eq in Hs.
  - unfold polls. rewrite n_posts_app, n_posts_pending_rounds. reflexivity.
  - unfold polls. rewrite flat_map_app. cbn [flat_map app]. rewrite app_nil_r.
    clear. induction N as [| N IH]; [reflexivity |].
    cbn [repeat List.concat]. rewrite flat_map_app, count_occ_app, IH. reflexivity.
Qed.

Lemma VerifyPush_pending_then_success_witness :
  VerifyPush (L := Ref.lib) net_pending2 3 ex_url ex_req []
  = Some ((decoded (L := Ref.lib) ex_success, None),
          [EvPost ex_url ex_js; EvStderr "Waiting for MFA response";
           EvPost ex_poll ex_js; EvStderr "."; EvSleep (5 * time_Second);
           EvPost ex_poll ex_js; EvStderr "."; EvSleep (5 * time_Second);
           EvPost ex_poll ex_js; EvStderr LF]).
Proof.
  pose proof (VerifyPush_pending_then_success (L := Ref.lib) net_pending2 ex_url ex_req []
                (push_started_body ex_poll) YAK_STATUS_OK 2 3) as H.
  cbv zeta in H. destruct H as [H _].
  - reflexivity.
  - intros i Hi. destruct i as [| [| i]]; [reflexivity | reflexivity | lia].
  - reflexivity.
  - lia.
  - vm_compute in H. vm_compute. exact H.
Defined.

(** C3. After any polls that kept the loop going, a poll answer whose
    status is neither MFA_CHALLENGE nor SUCCESS ends the loop at that
    status check: VerifyPush returns the decoded
    AuthSession marked YAK_STATUS_BAD_RESPONSE with the error
    "Bad status from Okta API: " followed by the status as received, and
    the trace ends with that poll (no further request).  With [k = 0]: a
    link that answers REJECTED fails at the first check. *)
Theorem VerifyPush_bad_status {L : GoLib} (net : Network) (url : string) (req : PushRequest)
    (w0 : World) (body0 : string) (st0 : Z) (k fuel : nat) (s : string) :
  let js := pushJson_of req in
  let href := poll_href body0 in
  let first := S (n_requests w0) in
  let poll := poll_at net href js in
  let w' := (w0 ++ push_started url js ++ run_events href js poll first k
                ++ [EvPost href js; EvStderr LF])%list in
  answer (http_Post net (n_requests w0) url js) = (body0, st0, None) ->
  (forall i, (i < k)%nat ->
     failed (poll (first + i)%nat) || pending (poll (first + i)%nat) = true) ->
  (n_failed poll first k < 6)%nat ->
  failed (poll (first + k)%nat) = false ->
  Status (decoded (poll (first + k)%nat)) = s ->
  s <> "MFA_CHALLENGE" ->
  s <> "SUCCESS" ->
  (k < fuel)%nat ->
  VerifyPush net fuel url req w0
  = Some ((set_YakStatusCode YAK_STATUS_BAD_RESPONSE (decoded (poll (first + k)%nat)),
           Some (errors_New ("Bad status from Okta API: " ++ s))), w')
  /\ YakStatusCode (set_YakStatusCode YAK_STATUS_BAD_RESPONSE (decoded (poll (first + k)%nat)))
     = YAK_STATUS_BAD_RESPONSE
  /\ n_posts w' = (n_posts w0 + 1 + (k + 1))%nat.
Proof.
  intros js href first poll w' Hstart Hpre Hnf Hf Hs Hm Hsu Hfuel.
  split; [| split].
  - subst s. unfold w'.
    now apply (VerifyPush_bad net url req w0 body0 st0 Hstart k fuel).
  - reflexivity.
  - unfold w'. rewrite !n_posts_app, n_posts_run_events. cbn. lia.
Qed.

Lemma VerifyPush_bad_status_witness :
  VerifyPush (L := Ref.lib) net_rejected 1 ex_url ex_req []
  = Some ((mkOktaAuthResponse "" "" "" "REJECTED" zero_AuthResponseEmbedded
                              YAK_STATUS_BAD_RESPONSE,
           Some (errors_New "Bad status from Okta API: REJECTED")),
          [EvPost ex_url ex_js; EvStderr "Waiting for MFA response";
           EvPost ex_poll ex_js; EvStderr LF]).
Proof.
  pose proof (VerifyPush_bad_status (L := Ref.lib) net_rejected ex_url ex_req []
                (push_started_body ex_poll) YAK_STATUS_OK 0 1 "REJECTED") as H.
  cbv zeta in H. destruct H as [H _].
  - reflexivity.
  - intros i Hi. lia.
  - cbn. lia.
  - reflexivity.
  - reflexivity.
  - discriminate.
  - discriminate.
  - lia.
  - vm_compute in H. vm_compute. exact H.
Defined.

(** C4 (as the code has it).  A 401 or 403 answer ends [Authenticate],
    [VerifyTotp] and the request that starts [VerifyPush] at once: one
    POST, YAK_STATUS_UNAUTHORISED and the error returned.  Inside the
    polling loop it is treated like every other failed poll: it takes one
    from the same budget of six and the next poll follows at once, without
    the five-second sleep; when it is the sixth failed poll the loop ends
    with YAK_STATUS_UNAUTHORISED. *)
Theorem unauthorised_ends_single_requests_only {L : GoLib} (net : Network) :
  (forall oktaHref userData w oktaUrl resp,
      url_Parse oktaHref = inr oktaUrl ->
      let target := URL_String (URL_ResolveReference oktaUrl primaryAuthEndpoint) in
      let body := fst (Marshal_UserData userData) in
      http_Post net (n_requests w) target body = HttpOk resp ->
      unauthorised (HttpOk resp) = true ->
      Authenticate net oktaHref userData w
      = ((OktaAuthResponse_with YAK_STATUS_UNAUTHORISED,
          Some (errors_New ("Unauthorised (" ++ resp_Status resp ++ ")"))),
         (w ++ [EvPost target body])%list))
  /\ (forall url totp w resp,
        let body := fst (Marshal_TotpRequest totp) in
        http_Post net (n_requests w) url body = HttpOk resp ->
        unauthorised (HttpOk resp) = true ->
        VerifyTotp net url totp w
        = ((OktaAuthResponse_with YAK_STATUS_UNAUTHORISED,
            Some (errors_New ("Unauthorised (" ++ resp_Status resp ++ ")"))),
           (w ++ [EvPost url body])%list))
  /\ (forall fuel url req w resp,
        http_Post net (n_requests w) url (pushJson_of req) = HttpOk resp ->
        unauthorised (HttpOk resp) = true ->
        VerifyPush net fuel url req w
        = Some ((OktaAuthResponse_with YAK_STATUS_UNAUTHORISED,
                 Some (errors_New ("Unauthorised (" ++ resp_Status resp ++ ")"))),
                (w ++ [EvPost url (pushJson_of req)])%list))
  /\ (forall url req w0 body0 st0 k fuel resp,
        let js := pushJson_of req in
        let href := poll_href body0 in
        let first := S (n_requests w0) in
        let poll := poll_at net href js in
        answer (http_Post net (n_requests w0) url js) = (body0, st0, None) ->
        (forall i, (i < k)%nat ->
           failed (poll (first + i)%nat) || pending (poll (first + i)%nat) = true) ->
        poll (first + k)%nat = HttpOk resp ->
        unauthorised (HttpOk resp) = true ->
        (k < fuel)%nat ->
        ((n_failed poll first k < 5)%nat ->
         succeeded (poll (first + k + 1)%nat) = true ->
         (k + 1 < fuel)%nat ->
         VerifyPush net fuel url req w0
         = Some ((decoded (poll (first + k + 1)%nat), None),
                 (w0 ++ push_started url js ++ run_events href js poll first k
                     ++ [EvPost href js; EvPost href js; EvStderr LF])%list))
        /\ (n_failed poll first k = 5%nat ->
            VerifyPush net fuel url req w0
            = Some ((OktaAuthResponse_with YAK_STATUS_UNAUTHORISED,
                     Some (errors_New ("Unauthorised (" ++ resp_Status resp ++ ")"))),
                    (w0 ++ push_started url js ++ run_events href js poll first k
                        ++ [EvPost href js;
                            EvStderr (LF ++ "Too many network errors, aborting...")])%list))).
Proof.
  split; [| split; [| split]].
  - intros oktaHref userData w oktaUrl resp Hu target body Hp Hun.
    rewrite (Authenticate_eq net oktaHref userData w oktaUrl Hu).
    fold target body. now rewrite Hp, (answer_unauthorised resp Hun).
  - intros url totp w resp body Hp Hun.
    rewrite VerifyTotp_eq. fold body. now rewrite Hp, (answer_unauthorised resp Hun).
  - intros fuel url req w resp Hp Hun.
    apply (VerifyPush_refused net fuel url req w "").
    now rewrite Hp, (answer_unauthorised resp Hun).
  - intros url req w0 body0 st0 k fuel resp js href first poll Hstart Hpre Hp Hun Hfuel.
    assert (Hfk : failed (poll (first + k)%nat) = true).
    { unfold failed. now rewrite Hp, (answer_unauthorised resp Hun). }
    split.
    + intros Hlt Hs Hfuel'.
      assert (Hpre' : forall i, (i < S k)%nat ->
                failed (poll (first + i)%nat) || pending (poll (first + i)%nat) = true).
      { intros i Hi. destruct (Nat.eq_dec i k) as [-> | Hne].
        - now rewrite Hfk.
        - apply Hpre. lia. }
      rewrite (VerifyPush_succeeds net url req w0 body0 st0 Hstart (S k) fuel Hpre'
                 ltac:(lia)); fold js href poll first.
      * rewrite run_events_snoc. unfold poll_events. rewrite Hfk.
        replace (first + S k)%nat with (first + k + 1)%nat by lia.
        now rewrite <- !app_assoc.
      * rewrite n_failed_snoc, Hfk. lia.
      * now replace (first + S k)%nat with (first + k + 1)%nat by lia.
    + intros H5.
      apply (VerifyPush_aborts net url req w0 body0 st0 Hstart k fuel Hpre Hfuel "");
        [exact H5 |].
      fold js href poll first. now rewrite Hp, (answer_unauthorised resp Hun).
Qed.

Lemma unauthorised_ends_single_requests_only_witness :
  VerifyPush (L := Ref.lib) net_unauthorised_poll 2 ex_url ex_req []
  = Some ((decoded (L := Ref.lib) ex_success, None),
          [EvPost ex_url ex_js; EvStderr "Waiting for MFA response";
           EvPost ex_poll ex_js; EvPost ex_poll ex_js; EvStderr LF]).
Proof.
  pose proof (unauthorised_ends_single_requests_only (L := Ref.lib) net_unauthorised_poll)
    as (_ & _ & _ & H).
  specialize (H ex_url ex_req [] (push_started_body ex_poll) YAK_STATUS_OK 0%nat 2%nat
                (mkHttpResponse 401 "401 Unauthorized" ("", None))).
  cbv zeta in H. destruct H as [H _].
  - reflexivity.
  - intros i Hi. lia.
  - reflexivity.
  - reflexivity.
  - lia.
  - rewrite H; [vm_compute; reflexivity | cbn; lia | reflexivity | lia].
Defined.

(** C4 as stated does not hold: a poll answered 401 is classified
    unauthorised by [makeRequest], and VerifyPush polls again and returns
    the SUCCESS it then receives. *)
Lemma unauthorised_poll_retried_counterexample :
  answer (http_status 401 "401 Unauthorized")
  = ("", YAK_STATUS_UNAUTHORISED, Some (errors_New "Unauthorised (401 Unauthorized)"))
  /\ VerifyPush (L := Ref.lib) net_unauthorised_poll 100 ex_url ex_req []
     = Some ((mkOktaAuthResponse "" "" "" "SUCCESS" zero_AuthResponseEmbedded YAK_STATUS_OK,
              None),
             [EvPost ex_url ex_js; EvStderr "Waiting for MFA response";
              EvPost ex_poll ex_js; EvPost ex_poll ex_js; EvStderr LF]).
Proof. split; vm_compute; reflexivity. Qed.

(** ** The HTML scan *)

Lemma find_app_last {A : Type} (f : A -> bool) (l : list A) (x : A) :
  find f (l ++ [x])%list
  = match find f l with
    | Some y => Some y
    | None => if f x then Some x else None
    end.
Proof.
  induction l as [| y l IH]; [reflexivity |].
  cbn [app find]. destruct (f y); [reflexivity | exact IH].
Qed.

Lemma scan_attributes_last (attrs : list Attribute) :
  forall inputName inputValue,
    scan_attributes attrs inputName inputValue
    = (match find (fun a => (Key a =? "name")%string) (rev attrs) with
       | Some a => Val a
       | None => inputName
       end,
       match find (fun a => (Key a =? "value")%string) (rev attrs) with
       | Some a => Val a
       | None => inputValue
       end).
Proof.
  induction attrs as [| a attrs IH]; intros n v; [reflexivity |].
  cbn [scan_attributes rev]. rewrite IH, !find_app_last.
  destruct (find (fun a0 => (Key a0 =? "name")%string) (rev attrs)),
           (find (fun a0 => (Key a0 =? "value")%string) (rev attrs));
    destruct (Key a =? "name")%string, (Key a =? "value")%string; reflexivity.
Qed.

Lemma scan_attributes_spec (attrs : list Attribute) :
  scan_attributes attrs "" "" = (attr_value "name" attrs, attr_value "value" attrs).
Proof. apply scan_attributes_last. Qed.

Lemma attr_value_absent (key : string) (attrs : list Attribute) :
  (forall a, In a attrs -> Key a <> key) -> attr_value key attrs = "".
Proof.
  intros H. unfold attr_value.
  destruct (find (fun a => (Key a =? key)%string) (rev attrs)) as [a |] eqn:E;
    [| reflexivity].
  apply find_some in E as [Hin Hk]. apply String.eqb_eq in Hk.
  apply in_rev in Hin. now destruct (H a Hin).
Qed.

(** One step of the scan at a token that does not end it. *)
Lemma scan_tokens_skip (t : Token) (rest : list Token) :
  stops t = false -> scan_tokens (t :: rest) = scan_tokens rest.
Proof.
  unfold stops, is_saml_input. intros H. apply orb_false_elim in H as [He Hs].
  cbn [scan_tokens]. rewrite He.
  destruct (is_tag_open (Type_ t) && (Data t =? "input")%string); [| reflexivity].
  rewrite scan_attributes_spec. cbn [andb] in Hs. now rewrite Hs.
Qed.

Lemma scan_tokens_match (t : Token) (rest : list Token) :
  is_ErrorToken (Type_ t) = false -> is_saml_input t = true ->
  scan_tokens (t :: rest) = ((attr_value "value" (Attr t), None), rest).
Proof.
  unfold is_saml_input. intros He Hs. apply andb_prop in Hs as [Hi Hn].
  cbn [scan_tokens]. rewrite He, Hi, scan_attributes_spec. now rewrite Hn.
Qed.

Lemma saml_input_not_error (t : Token) :
  is_saml_input t = true -> is_ErrorToken (Type_ t) = false.
Proof.
  unfold is_saml_input. intros H. apply andb_prop in H as [H _].
  apply andb_prop in H as [H _]. now destruct (Type_ t).
Qed.

Lemma scan_tokens_prefix (pre : list Token) (rest : list Token) :
  forallb (fun x => negb (stops x)) pre = true ->
  scan_tokens (pre ++ rest) = scan_tokens rest.
Proof.
  induction pre as [| x pre IH]; [reflexivity |].
  cbn [forallb app]. intros H. apply andb_prop in H as [Hx Hp].
  apply negb_true_iff in Hx. now rewrite (scan_tokens_skip x _ Hx), (IH Hp).
Qed.

Lemma scan_tokens_none (ts : list Token) :
  (forall t, In t ts -> is_saml_input t = false) ->
  fst (scan_tokens ts) = ("", Some no_payload).
Proof.
  induction ts as [| t ts IH]; intros H; [reflexivity |].
  destruct (is_ErrorToken (Type_ t)) eqn:He.
  - cbn [scan_tokens]. now rewrite He.
  - rewrite scan_tokens_skip.
    + apply IH. intros x Hx. apply H. now right.
    + unfold stops. rewrite He. apply H. now left.
Qed.

(** C7. The scan is one pass over the tokens: the first start or
    self-closing [input] tag whose name attribute is SAMLResponse gives
    the result, its value attribute, and the scan stops there (the tokens
    after it are not consumed); when the tokens end, or the tokeniser
    reports an error, before such a tag, the result is the error
    "No SAML payload found in response from Okta".  A document with the
    tag [<input type="hidden" name="SAMLResponse" value="QUJD">] before
    any other such tag gives "QUJD", which decodes to "ABC". *)
Theorem extractSamlPayload_first_match {L : GoLib} (htmlDocument : string) :
  let ts := html_tokens htmlDocument in
  (forall pre t post,
      ts = (pre ++ t :: post)%list ->
      forallb (fun x => negb (stops x)) pre = true ->
      is_saml_input t = true ->
      extractSamlPayload htmlDocument = (attr_value "value" (Attr t), None)
      /\ scan_tokens ts = ((attr_value "value" (Attr t), None), post))
  /\ ((forall t, In t ts -> is_saml_input t = false) ->
      extractSamlPayload htmlDocument = ("", Some no_payload))
  /\ (forall pre t post,
        ts = (pre ++ t :: post)%list ->
        forallb (fun x => negb (stops x)) pre = true ->
        is_ErrorToken (Type_ t) = true ->
        extractSamlPayload htmlDocument = ("", Some no_payload))
  /\ (forall pre post,
        ts = (pre ++ mkToken StartTagToken "input"
                       [mkAttribute "" "type" "hidden";
                        mkAttribute "" "name" "SAMLResponse";
                        mkAttribute "" "value" "QUJD"] :: post)%list ->
        forallb (fun x => negb (stops x)) pre = true ->
        extractSamlPayload htmlDocument = ("QUJD", None)
        /\ base64_StdEncoding_DecodeString "QUJD" = ("ABC", None)).
Proof.
  intros ts. unfold extractSamlPayload. fold ts.
  assert (Hmatch : forall pre t post,
             ts = (pre ++ t :: post)%list ->
             forallb (fun x => negb (stops x)) pre = true ->
             is_saml_input t = true ->
             scan_tokens ts = ((attr_value "value" (Attr t), None), post)).
  { intros pre t post -> Hpre Ht.
    rewrite (scan_tokens_prefix pre _ Hpre).
    apply scan_tokens_match; [now apply saml_input_not_error | exact Ht]. }
  split; [| split; [| split]].
  - intros pre t post E Hpre Ht. now rewrite (Hmatch pre t post E Hpre Ht).
  - apply scan_tokens_none.
  - intros pre t post -> Hpre He.
    rewrite (scan_tokens_prefix pre _ Hpre). cbn [scan_tokens]. now rewrite He.
  - intros pre post E Hpre. split; [| reflexivity].
    now rewrite (Hmatch pre _ post E Hpre eq_refl).
Qed.

Lemma extractSamlPayload_first_match_witness :
  extractSamlPayload (L := Ref.lib) ex_html = ("QUJD", None)
  /\ base64_StdEncoding_DecodeString "QUJD" = ("ABC", None).
Proof.
  pose proof (extractSamlPayload_first_match (L := Ref.lib) ex_html) as H.
  cbv zeta in H. destruct H as (_ & _ & _ & H).
  apply (H [mkToken StartTagToken "html" []; mkToken StartTagToken "body" [];
            mkToken StartTagToken "form" [mkAttribute "" "method" "post"]]
           [mkToken StartTagToken "input" [mkAttribute "" "type" "submit"];
            mkToken EndTagToken "form" []; mkToken EndTagToken "body" [];
            mkToken EndTagToken "html" []]);
    vm_compute; reflexivity.
Defined.

(** ** The query string of the assertion exchange *)

Lemma QueryEscape_roundtrip (s : string) :
  url_QueryUnescape (url_QueryEscape s) = inr s.
Proof.
  induction s as [| c s IH]; [reflexivity |].
  transitivity (match url_QueryUnescape (url_QueryEscape s) with
                | inr t => inr (String c t)
                | inl e => inl e
                end).
  - destruct c as [[] [] [] [] [] [] [] []]; reflexivity.
  - now rewrite IH.
Qed.

Lemma QueryEscape_plain (s : string) : all_chars query_plain (url_QueryEscape s) = true.
Proof.
  induction s as [| c s IH]; [reflexivity |].
  destruct c as [[] [] [] [] [] [] [] []]; exact IH.
Qed.

Lemma break_at_none (p : ascii -> bool) (s : string) :
  all_chars (fun c => negb (p c)) s = true -> break_at p s = (s, None).
Proof.
  induction s as [| c s IH]; [reflexivity |].
  cbn. intros H. apply andb_prop in H as [Hc Hs].
  apply negb_true_iff in Hc. now rewrite Hc, (IH Hs).
Qed.

Lemma all_chars_weaken (p q : ascii -> bool) (s : string) :
  (forall c, p c = true -> q c = true) -> all_chars p s = true -> all_chars q s = true.
Proof.
  intros Hpq. induction s as [| c s IH]; [reflexivity |].
  cbn. intros H. apply andb_prop in H as [Hc Hs].
  now rewrite (Hpq c Hc), (IH Hs).
Qed.

Lemma all_chars_app (p : ascii -> bool) (a b : string) :
  all_chars p (a ++ b) = all_chars p a && all_chars p b.
Proof.
  induction a as [| c a IH]; [reflexivity |].
  cbn [append all_chars]. now rewrite IH, andb_assoc.
Qed.

Lemma break_at_prefix (p : ascii -> bool) (a : string) (c : ascii) (r : string) :
  all_chars (fun x => negb (p x)) a = true -> p c = true ->
  break_at p (a ++ String c r) = (a, Some r).
Proof.
  intros Ha Hc. induction a as [| x a IH].
  - cbn [append break_at]. now rewrite Hc.
  - cbn [all_chars] in Ha. apply andb_prop in Ha as [Hx Ha].
    apply negb_true_iff in Hx. cbn [append break_at]. now rewrite Hx, (IH Ha).
Qed.

Lemma Encode_single (k v : string) :
  Values_Encode (Values_Add k v []) = url_QueryEscape k ++ "=" ++ url_QueryEscape v.
Proof.
  unfold Values_Encode, Values_Add, Values_lookup, sort_Strings.
  cbn [map fst fold_right insert_sorted flat_map find]. rewrite String.eqb_refl.
  cbn [snd map app]. reflexivity.
Qed.

(** A query of one pair whose key and value hold no separator and no
    equals sign parses to that pair. *)
Lemma ParseQuery_single (c : ascii) (k e k' v : string) :
  all_chars query_plain (String c k) = true ->
  all_chars query_plain e = true ->
  url_QueryUnescape (String c k) = inr k' ->
  url_QueryUnescape e = inr v ->
  url_ParseQuery (String c k ++ String "=" e) = ([(k', v)], None).
Proof.
  intros Hk He Uk Ue.
  assert (Hsep : forall s, all_chars query_plain s = true ->
                           all_chars (fun x => negb (is_query_sep x)) s = true).
  { intros s. apply all_chars_weaken. intros x H. unfold query_plain in H.
    now apply andb_prop in H as [H _]. }
  assert (Heq : forall s, all_chars query_plain s = true ->
                          all_chars (fun x => negb (x =? "=")%char) s = true).
  { intros s. apply all_chars_weaken. intros x H. unfold query_plain in H.
    now apply andb_prop in H as [_ H]. }
  assert (Hwhole : break_at is_query_sep (String c k ++ String "=" e)
                   = (String c k ++ String "=" e, None)).
  { apply break_at_none. rewrite all_chars_app. rewrite (Hsep _ Hk).
    cbn [all_chars andb]. change (negb (is_query_sep "=")) with true.
    cbn [andb]. now apply Hsep. }
  assert (Hpair : break_at (fun x => (x =? "=")%char) (String c k ++ String "=" e)
                  = (String c k, Some e)).
  { apply break_at_prefix; [now apply Heq | reflexivity]. }
  unfold url_ParseQuery.
  change (String c k ++ String "=" e) with (String c (k ++ String "=" e)) at 1.
  cbv beta iota. cbn [split_query]. rewrite Hwhole. cbn [fold_left].
  unfold parse_pair.
  change (String c k ++ String "=" e) with (String c (k ++ String "=" e)) at 1.
  cbv beta iota. rewrite Hpair, Uk, Ue. reflexivity.
Qed.

Lemma Encode_onetimetoken (token : string) :
  Values_Encode (Values_Add "onetimetoken" token []) = "onetimetoken=" ++ url_QueryEscape token.
Proof. rewrite Encode_single. reflexivity. Qed.

Lemma ParseQuery_onetimetoken (token : string) :
  url_ParseQuery ("onetimetoken=" ++ url_QueryEscape token)
  = ([("onetimetoken", token)], None).
Proof.
  change ("onetimetoken=" ++ url_QueryEscape token)
    with ("onetimetoken" ++ String "=" (url_QueryEscape token)).
  apply ParseQuery_single;
    [reflexivity | apply QueryEscape_plain | reflexivity | apply QueryEscape_roundtrip].
Qed.

(** C8. The URL that AwsSamlLogin fetches is the SAML reference resolved
    against the Okta address with its query replaced by the encoding of
    the single pair onetimetoken = session token: parsed back, the query
    has exactly that one parameter with exactly that value.  The call
    makes one request, a GET of that URL. *)
Theorem AwsSamlLogin_url {L : GoLib} (net : Network) (oktaHref samlHref : string)
    (oktaAuthResponse : OktaAuthResponse) (w : World) (oktaUrl samlEndpoint : URL) :
  url_Parse oktaHref = inr oktaUrl ->
  url_Parse samlHref = inr samlEndpoint ->
  let token := SessionToken oktaAuthResponse in
  let samlUrl := samlUrl_of oktaUrl samlEndpoint oktaAuthResponse in
  samlUrl = set_RawQuery ("onetimetoken=" ++ url_QueryEscape token)
                         (URL_ResolveReference oktaUrl samlEndpoint)
  /\ url_ParseQuery (RawQuery samlUrl) = ([("onetimetoken", token)], None)
  /\ snd (AwsSamlLogin net oktaHref samlHref oktaAuthResponse w)
     = (w ++ [EvGet (URL_String samlUrl)])%list.
Proof.
  intros Ho Hs token samlUrl.
  assert (E : samlUrl = set_RawQuery ("onetimetoken=" ++ url_QueryEscape token)
                                     (URL_ResolveReference oktaUrl samlEndpoint)).
  { unfold samlUrl, samlUrl_of. now rewrite Encode_onetimetoken. }
  split; [exact E | split].
  - rewrite E. cbn [RawQuery set_RawQuery]. apply ParseQuery_onetimetoken.
  - unfold AwsSamlLogin. rewrite Ho, Hs. fold samlUrl.
    unfold bind, client_Get, ret.
    destruct (http_Get net (n_requests w) (URL_String samlUrl)) as [e | resp];
      [reflexivity |].
    destruct (300 <=? resp_StatusCode resp); [reflexivity |].
    destruct (resp_Body resp) as [body [e |]]; [reflexivity |].
    destruct (extractSamlPayload body) as [data [e |]]; [reflexivity |].
    destruct (base64_StdEncoding_DecodeString data) as [saml [e |]]; reflexivity.
Qed.

Lemma AwsSamlLogin_url_witness :
  snd (AwsSamlLogin (L := Ref.lib) net_down ex_okta ex_saml ex_session [])
  = [EvGet ("https://example.okta.com/app/amazon_aws/exk1a2b3c4/sso/saml"
            ++ "?onetimetoken=20111+i%2FUq%2Bw%3D%26x")]
  /\ url_ParseQuery "onetimetoken=20111+i%2FUq%2Bw%3D%26x"
     = ([("onetimetoken", "20111 i/Uq+w=&x")], None).
Proof.
  destruct (Ref.url_Parse ex_okta) as [e | oktaUrl] eqn:Ho; [discriminate |].
  destruct (Ref.url_Parse ex_saml) as [e | samlEndpoint] eqn:Hs; [discriminate |].
  pose proof (AwsSamlLogin_url (L := Ref.lib) net_down ex_okta ex_saml ex_session []
                oktaUrl samlEndpoint Ho Hs) as H.
  cbv zeta in H. destruct H as (_ & Hq & Hw).
  vm_compute in Ho, Hs. injection Ho as <-. injection Hs as <-.
  split; [rewrite Hw; vm_compute; reflexivity | vm_compute; reflexivity].
Defined.

(** C10. When the first SAMLResponse input of the fetched document has
    no value attribute, or an empty one, the scan succeeds with the empty
    string, decoding the empty string succeeds with no bytes, and
    AwsSamlLogin returns the empty payload with a nil error. *)
Theorem AwsSamlLogin_empty_value {L : GoLib} (net : Network) (oktaHref samlHref : string)
    (oktaAuthResponse : OktaAuthResponse) (w : World) (oktaUrl samlEndpoint : URL)
    (resp : HttpResponse) (body : string) (pre post : list Token) (t : Token) :
  url_Parse oktaHref = inr oktaUrl ->
  url_Parse samlHref = inr samlEndpoint ->
  http_Get net (n_requests w)
           (URL_String (samlUrl_of oktaUrl samlEndpoint oktaAuthResponse))
  = HttpOk resp ->
  resp_StatusCode resp < 300 ->
  resp_Body resp = (body, None) ->
  html_tokens body = (pre ++ t :: post)%list ->
  forallb (fun x => negb (stops x)) pre = true ->
  is_saml_input t = true ->
  (forall a, In a (Attr t) -> Key a <> "value") \/ attr_value "value" (Attr t) = "" ->
  extractSamlPayload body = ("", None)
  /\ base64_StdEncoding_DecodeString "" = ("", None)
  /\ fst (AwsSamlLogin net oktaHref samlHref oktaAuthResponse w) = ("", None).
Proof.
  intros Ho Hs Hget Hcode Hbody Hts Hpre Ht Hval.
  assert (Hv : attr_value "value" (Attr t) = "").
  { destruct Hval as [H | H]; [now apply attr_value_absent | exact H]. }
  assert (Hx : extractSamlPayload body = ("", None)).
  { unfold extractSamlPayload. rewrite Hts, (scan_tokens_prefix pre _ Hpre).
    rewrite scan_tokens_match; [now rewrite Hv | now apply saml_input_not_error | exact Ht]. }
  split; [exact Hx | split; [reflexivity |]].
  unfold AwsSamlLogin. rewrite Ho, Hs. unfold bind, client_Get. rewrite Hget.
  destruct (Z.leb_spec 300 (resp_StatusCode resp)); [lia |].
  rewrite Hbody, Hx. reflexivity.
Qed.

Lemma AwsSamlLogin_empty_value_witness :
  AwsSamlLogin (L := Ref.lib) net_no_value ex_okta ex_saml ex_session []
  = (("", None),
     [EvGet ("https://example.okta.com/app/amazon_aws/exk1a2b3c4/sso/saml"
             ++ "?onetimetoken=20111+i%2FUq%2Bw%3D%26x")]).
Proof.
  destruct (Ref.url_Parse ex_okta) as [e | oktaUrl] eqn:Ho; [discriminate |].
  destruct (Ref.url_Parse ex_saml) as [e | samlEndpoint] eqn:Hs; [discriminate |].
  pose proof (AwsSamlLogin_empty_value (L := Ref.lib) net_no_value ex_okta ex_saml
                ex_session [] oktaUrl samlEndpoint
                (mkHttpResponse 200 "200 OK" (ex_html_no_value, None)) ex_html_no_value
                [mkToken StartTagToken "form" []] [mkToken EndTagToken "form" []]
                (mkToken StartTagToken "input"
                   [mkAttribute "" "type" "hidden"; mkAttribute "" "name" "SAMLResponse"])
                Ho Hs) as H.
  vm_compute in Ho, Hs. injection Ho as <-. injection Hs as <-.
  destruct H as (_ & _ & H).
  - reflexivity.
  - cbn. lia.
  - reflexivity.
  - reflexivity.
  - reflexivity.
  - reflexivity.
  - left. intros a [<- | [<- | []]]; discriminate.
  - rewrite (surjective_pairing (AwsSamlLogin _ _ _ _ _)). rewrite H.
    vm_compute. reflexivity.
Defined.

(** ** The status code and the response body *)

(** Storing a JSON object leaves YakStatusCode as it was when no key of
    the object names that field. *)
Lemma decode_keeps_status (members : list (string * JSON)) :
  forall v,
    (forall kv, In kv members -> foldName (fst kv) <> "yakstatuscode") ->
    YakStatusCode (decode_struct OktaAuthResponse_field (JObject members) v)
    = YakStatusCode v.
Proof.
  unfold decode_struct.
  induction members as [| kv members IH]; intros v H; [reflexivity |].
  cbn [fold_left]. rewrite IH by (intros x Hx; apply H; now right).
  specialize (H kv (or_introl eq_refl)). apply String.eqb_neq in H.
  unfold OktaAuthResponse_field. rewrite H.
  repeat match goal with
         | |- context [if ?b then _ else _] => destruct b; try reflexivity
         end.
Qed.

(** A body that is not JSON leaves the struct as it was. *)
Lemma Unmarshal_malformed {L : GoLib} (body : string) (v : OktaAuthResponse) :
  json_parse body = None -> Unmarshal_OktaAuthResponse body v = v.
Proof. unfold Unmarshal_OktaAuthResponse, json_Unmarshal. now intros ->. Qed.

(** A body whose only member names YakStatusCode, in any letter case, and
    holds an integer sets the field to that integer. *)
Lemma Unmarshal_status {L : GoLib} (body key lit : string) (n : Z) (v : OktaAuthResponse) :
  json_parse body = Some (JObject [(key, JNumber lit)]) ->
  foldName key = "yakstatuscode" ->
  strconv_ParseInt lit = Some n ->
  Unmarshal_OktaAuthResponse body v = set_YakStatusCode n v.
Proof.
  unfold Unmarshal_OktaAuthResponse, json_Unmarshal. intros -> Hk Hn.
  unfold decode_struct. cbn [fold_left fst snd]. rewrite Hk.
  unfold OktaAuthResponse_field. cbn. now rewrite Hn.
Qed.

(** What holds of every call: a non-nil error never comes with
    YAK_STATUS_OK. *)
Lemma Authenticate_error_not_ok {L : GoLib} (net : Network) (oktaHref : string)
    (userData : UserData) (w : World) (e : error) :
  snd (fst (Authenticate net oktaHref userData w)) = Some e ->
  YakStatusCode (fst (fst (Authenticate net oktaHref userData w))) <> YAK_STATUS_OK.
Proof.
  destruct (url_Parse oktaHref) as [e' | oktaUrl] eqn:Hu.
  - unfold Authenticate, Marshal_UserData. rewrite Hu. discriminate.
  - rewrite (Authenticate_eq net oktaHref userData w oktaUrl Hu). cbn [fst snd].
    match goal with |- context [answer ?r] => pose proof (answer_status r) as Hst;
                                             destruct (answer r) as [[b st] [e' |]] end;
      [intros _; exact Hst | discriminate].
Qed.

Lemma VerifyTotp_error_not_ok {L : GoLib} (net : Network) (url : string) (t : TotpRequest)
    (w : World) (e : error) :
  snd (fst (VerifyTotp net url t w)) = Some e ->
  YakStatusCode (fst (fst (VerifyTotp net url t w))) <> YAK_STATUS_OK.
Proof.
  rewrite VerifyTotp_eq. cbn [fst snd].
  match goal with |- context [answer ?r] => pose proof (answer_status r) as Hst;
                                           destruct (answer r) as [[b st] [e' |]] end;
    [intros _; exact Hst | discriminate].
Qed.

Lemma poll_loop_error_not_ok {L : GoLib} (net : Network) (href js : string) (fuel : nat) :
  forall er w r e w',
    poll_loop net fuel href js er w = Some ((r, Some e), w') ->
    YakStatusCode r <> YAK_STATUS_OK.
Proof.
  induction fuel as [| fuel IH]; intros er w r e w'; [discriminate |].
  cbn [poll_loop]. rewrite makeRequest_eq.
  match goal with |- context [answer ?x] => pose proof (answer_status x) as Hst;
                                           destruct (answer x) as [[b st] [e' |]] end.
  - destruct (int_sub er 1 =? 0).
    + unfold eprint, emit. intros H. injection H as <- _ _. exact Hst.
    + apply IH.
  - destruct (negb (Status (Unmarshal_OktaAuthResponse b (OktaAuthResponse_with st))
                    =? "MFA_CHALLENGE")%string).
    + destruct (Status (Unmarshal_OktaAuthResponse b (OktaAuthResponse_with st))
                =? "SUCCESS")%string; unfold eprint, emit.
      * discriminate.
      * intros H. injection H as <- _ _. discriminate.
    + unfold eprint, time_Sleep, emit. apply IH.
Qed.

Lemma VerifyPush_error_not_ok {L : GoLib} (net : Network) (fuel : nat) (url : string)
    (req : PushRequest) (w : World) (r : OktaAuthResponse) (e : error) (w' : World) :
  VerifyPush net fuel url req w = Some ((r, Some e), w') ->
  YakStatusCode r <> YAK_STATUS_OK.
Proof.
  unfold VerifyPush, Marshal_PushRequest. rewrite makeRequest_eq.
  match goal with |- context [answer ?x] => pose proof (answer_status x) as Hst;
                                           destruct (answer x) as [[b st] [e' |]] end.
  - intros H. injection H as <- _ _. exact Hst.
  - unfold eprint, emit. apply poll_loop_error_not_ok.
Qed.

(** When the body is not JSON, Authenticate returns the struct it
    started from, marked YAK_STATUS_OK, and a nil error. *)
Lemma Authenticate_malformed_body {L : GoLib} (net : Network) (oktaHref : string)
    (userData : UserData) (w : World) (oktaUrl : URL) (body : string) (st : Z) :
  url_Parse oktaHref = inr oktaUrl ->
  answer (http_Post net (n_requests w)
            (URL_String (URL_ResolveReference oktaUrl primaryAuthEndpoint))
            (fst (Marshal_UserData userData))) = (body, st, None) ->
  json_parse body = None ->
  fst (Authenticate net oktaHref userData w) = (OktaAuthResponse_with YAK_STATUS_OK, None).
Proof.
  intros Hu Ha Hj. rewrite (Authenticate_eq net oktaHref userData w oktaUrl Hu).
  cbn [fst]. rewrite Ha. now rewrite Unmarshal_malformed.
Qed.

(** C6: the failing case.  The transport helper succeeds (status 200,
    body read in full) and the body is the JSON object with the one
    member YakStatusCode (in any letter case) holding an integer [n]:
    Authenticate returns a nil error and an AuthSession whose status code
    is [n], not YAK_STATUS_OK. *)
Theorem Authenticate_status_from_body {L : GoLib} (net : Network) (oktaHref : string)
    (userData : UserData) (w : World) (oktaUrl : URL) (body key lit : string) (n : Z) :
  url_Parse oktaHref = inr oktaUrl ->
  http_Post net (n_requests w)
            (URL_String (URL_ResolveReference oktaUrl primaryAuthEndpoint))
            (fst (Marshal_UserData userData))
  = HttpOk (mkHttpResponse 200 "200 OK" (body, None)) ->
  json_parse body = Some (JObject [(key, JNumber lit)]) ->
  foldName key = "yakstatuscode" ->
  strconv_ParseInt lit = Some n ->
  n <> YAK_STATUS_OK ->
  fst (makeRequest net (URL_String (URL_ResolveReference oktaUrl primaryAuthEndpoint))
                   (fst (Marshal_UserData userData)) w)
  = (body, YAK_STATUS_OK, None)
  /\ fst (Authenticate net oktaHref userData w) = (OktaAuthResponse_with n, None)
  /\ YakStatusCode (fst (fst (Authenticate net oktaHref userData w))) <> YAK_STATUS_OK.
Proof.
  intros Hu Hp Hj Hk Hn Hne.
  assert (E : fst (Authenticate net oktaHref userData w) = (OktaAuthResponse_with n, None)).
  { rewrite (Authenticate_eq net oktaHref userData w oktaUrl Hu). cbn [fst].
    rewrite Hp. change (answer (HttpOk (mkHttpResponse 200 "200 OK" (body, None))))
      with (body, YAK_STATUS_OK, @None error).
    cbv beta iota. now rewrite (Unmarshal_status body key lit n _ Hj Hk Hn). }
  split; [| split].
  - rewrite makeRequest_eq. cbn [fst]. now rewrite Hp.
  - exact E.
  - rewrite E. exact Hne.
Qed.

Lemma Authenticate_status_from_body_witness :
  Authenticate (L := Ref.lib) net_status_in_body ex_okta ex_user []
  = ((OktaAuthResponse_with YAK_STATUS_NET_ERROR, None),
     [EvPost "https://example.okta.com/api/v1/authn"
             (fst (Marshal_UserData (L := Ref.lib) ex_user))]).
Proof.
  destruct (Ref.url_Parse ex_okta) as [e | oktaUrl] eqn:Ho; [discriminate |].
  pose proof (Authenticate_status_from_body (L := Ref.lib) net_status_in_body ex_okta
                ex_user [] oktaUrl (yak_status_body "3") "YakStatusCode" "3" 3 Ho) as H.
  vm_compute in Ho. injection Ho as <-.
  destruct H as (_ & H & _);
    [reflexivity | reflexivity | reflexivity | reflexivity | discriminate |].
  rewrite (surjective_pairing (Authenticate _ _ _ _)). rewrite H.
  vm_compute. reflexivity.
Defined.

(** C9: the failing case.  "Status OK exactly when the error is nil"
    holds of [makeRequest] ([answer_status]) and, for the three calls, in
    the direction from a non-nil error to a status other than OK (the
    [_error_not_ok] lemmas above).  The other direction fails: when the
    body of a successful answer is the JSON object with the one member
    YakStatusCode holding an integer [n] other than 0, VerifyTotp returns
    a nil error together with the status code [n]. *)
Theorem VerifyTotp_nil_error_not_ok {L : GoLib} (net : Network) (url : string)
    (totp : TotpRequest) (w : World) (body key lit : string) (n : Z) :
  http_Post net (n_requests w) url (fst (Marshal_TotpRequest totp))
  = HttpOk (mkHttpResponse 200 "200 OK" (body, None)) ->
  json_parse body = Some (JObject [(key, JNumber lit)]) ->
  foldName key = "yakstatuscode" ->
  strconv_ParseInt lit = Some n ->
  n <> YAK_STATUS_OK ->
  snd (fst (VerifyTotp net url totp w)) = None
  /\ YakStatusCode (fst (fst (VerifyTotp net url totp w))) = n
  /\ YakStatusCode (fst (fst (VerifyTotp net url totp w))) <> YAK_STATUS_OK.
Proof.
  intros Hp Hj Hk Hn Hne.
  assert (E : fst (VerifyTotp net url totp w) = (OktaAuthResponse_with n, None)).
  { rewrite VerifyTotp_eq. cbn [fst]. rewrite Hp.
    change (answer (HttpOk (mkHttpResponse 200 "200 OK" (body, None))))
      with (body, YAK_STATUS_OK, @None error).
    cbv beta iota. now rewrite (Unmarshal_status body key lit n _ Hj Hk Hn). }
  rewrite E. cbn [fst snd YakStatusCode OktaAuthResponse_with]. now repeat split.
Qed.

Lemma VerifyTotp_nil_error_not_ok_witness :
  snd (fst (VerifyTotp (L := Ref.lib) net_status_4 ex_url ex_totp [])) = None
  /\ YakStatusCode (fst (fst (VerifyTotp (L := Ref.lib) net_status_4 ex_url ex_totp [])))
     = YAK_STATUS_BAD_RESPONSE
  /\ YakStatusCode (fst (fst (VerifyTotp (L := Ref.lib) net_status_4 ex_url ex_totp [])))
     <> YAK_STATUS_OK.
Proof.
  apply (VerifyTotp_nil_error_not_ok (L := Ref.lib) net_status_4 ex_url ex_totp []
           (yak_status_body "4") "YakStatusCode" "4" 4);
    [reflexivity | reflexivity | reflexivity | reflexivity | discriminate].
Defined.

(** The same in VerifyPush: the SUCCESS answer is returned with a nil
    error and the status code its body names. *)
Lemma VerifyPush_nil_error_not_ok_example :
  VerifyPush (L := Ref.lib) net_success_unauthorised 1 ex_url ex_req []
  = Some ((mkOktaAuthResponse "" "" "" "SUCCESS" zero_AuthResponseEmbedded
                              YAK_STATUS_UNAUTHORISED, None),
          [EvPost ex_url ex_js; EvStderr "Waiting for MFA response";
           EvPost ex_poll ex_js; EvStderr LF]).
Proof. vm_compute. reflexivity. Qed.

(** ** TotpFactorName *)

Lemma TotpFactorName_spec (key : string) :
  (key = "GOOGLE" -> TotpFactorName key = "Google Authenticator")
  /\ (key <> "GOOGLE" -> TotpFactorName key = key).
Proof.
  unfold TotpFactorName. split.
  - now intros ->.
  - intros H. apply String.eqb_neq in H. now rewrite H.
Qed.

(** * Further properties of the package *)

(** ** Every way VerifyPush can return *)

(** How the loop ends at the answer [r] with [left] failures still
    allowed: the pair returned and the events of the last iteration. *)
Inductive PollEnd {L : GoLib} (href js : string) (r : HttpResult) (left : Z)
    : OktaAuthResponse * option error -> list Event -> Prop :=
| EndSuccess :
    succeeded r = true ->
    PollEnd href js r left (decoded r, None) [EvPost href js; EvStderr LF]
| EndBadStatus :
    failed r = false ->
    Status (decoded r) <> "MFA_CHALLENGE" ->
    Status (decoded r) <> "SUCCESS" ->
    PollEnd href js r left
      (set_YakStatusCode YAK_STATUS_BAD_RESPONSE (decoded r),
       Some (errors_New ("Bad status from Okta API: " ++ Status (decoded r))))
      [EvPost href js; EvStderr LF]
| EndTooMany (body : string) (st : Z) (e : error) :
    answer r = (body, st, Some e) ->
    left = 1 ->
    PollEnd href js r left (OktaAuthResponse_with st, Some e)
      [EvPost href js; EvStderr (LF ++ "Too many network errors, aborting...")].

(** A run of the loop that returns: [k] polls that kept it going, fewer
    failed ones than the budget, and an ending at the poll after them. *)
Definition loop_outcome {L : GoLib} (net : Network) (href js : string) (fuel : nat)
    (er : Z) (w : World) (res : OktaAuthResponse * option error) (w' : World) : Prop :=
  exists (k : nat) (tail : list Event),
    (k < fuel)%nat
    /\ (forall i, (i < k)%nat ->
          failed (poll_at net href js (n_requests w + i))
          || pending (poll_at net href js (n_requests w + i)) = true)
    /\ Z.of_nat (n_failed (poll_at net href js) (n_requests w) k) < er
    /\ PollEnd href js (poll_at net href js (n_requests w + k))
               (er - Z.of_nat (n_failed (poll_at net href js) (n_requests w) k)) res tail
    /\ w' = (w ++ run_events href js (poll_at net href js) (n_requests w) k ++ tail)%list.

(** A call of VerifyPush that returns: either the request that starts
    the push failed, or the loop ran as [loop_outcome] says. *)
Definition push_outcome {L : GoLib} (net : Network) (fuel : nat) (url : string)
    (req : PushRequest) (w0 : World) (res : OktaAuthResponse * option error)
    (w' : World) : Prop :=
  let js := pushJson_of req in
  match answer (http_Post net (n_requests w0) url js) with
  | (_, st, Some e) =>
      res = (OktaAuthResponse_with st, Some e) /\ w' = (w0 ++ [EvPost url js])%list
  | (body0, _, None) =>
      loop_outcome net (poll_href body0) js fuel 6 (w0 ++ push_started url js)%list res w'
  end.

Lemma loop_outcome_step {L : GoLib} (net : Network) (href js : string) (fuel : nat)
    (er er' : Z) (w : World) (evs : list Event) (res : OktaAuthResponse * option error)
    (w' : World) :
  let r := poll_at net href js (n_requests w) in
  failed r || pending r = true ->
  evs = poll_events href js r ->
  er' = er - (if failed r then 1 else 0) ->
  n_requests (w ++ evs)%list = S (n_requests w) ->
  loop_outcome net href js fuel er' (w ++ evs)%list res w' ->
  loop_outcome net href js (S fuel) er w res w'.
Proof.
  intros r Hr Hevs Her Hn (k & tail & Hk & Hpre & Hlt & Hend & Hw).
  rewrite Hn in Hpre, Hlt, Hend, Hw.
  exists (S k), tail. repeat split.
  - lia.
  - intros i Hi. destruct i as [| i].
    + rewrite Nat.add_0_r. exact Hr.
    + replace (n_requests w + S i)%nat with (S (n_requests w) + i)%nat by lia.
      apply Hpre. lia.
  - cbn [n_failed]. fold r. subst er'. destruct (failed r); lia.
  - replace (n_requests w + S k)%nat with (S (n_requests w) + k)%nat by lia.
    cbn [n_failed]. fold r. subst er'.
    match goal with
    | H : PollEnd _ _ _ ?a _ _ |- PollEnd _ _ _ ?b _ _ => replace b with a; [exact H |]
    end.
    destruct (failed r); lia.
  - cbn [run_events]. fold r. rewrite Hw, Hevs. now rewrite <- !app_assoc.
Qed.

Lemma poll_loop_inv {L : GoLib} (net : Network) (href js : string) (fuel : nat) :
  forall er w res w',
    0 < er <= 6 ->
    poll_loop net fuel href js er w = Some (res, w') ->
    loop_outcome net href js fuel er w res w'.
Proof.
  induction fuel as [| fuel IH]; intros er w res w' Her; [discriminate |].
  cbn [poll_loop]. rewrite makeRequest_eq.
  fold (poll_at net href js (n_requests w)).
  set (r := poll_at net href js (n_requests w)).
  assert (Hend : forall tail, PollEnd href js r er res tail ->
                   w' = (w ++ tail)%list ->
                   loop_outcome net href js (S fuel) er w res w').
  { intros tail Hp Hw. exists 0%nat, tail. cbn [n_failed run_events].
    rewrite Nat.add_0_r, Z.sub_0_r. fold r. repeat split; trivial; lia. }
  destruct (answer r) as [[b st] [e |]] eqn:Ha.
  - assert (Hf : failed r = true) by (unfold failed; now rewrite Ha).
    rewrite int_sub_small by lia.
    destruct (Z.eqb_spec (er - 1) 0) as [H1 | H1].
    + unfold eprint, emit. intros H. injection H as <- <-.
      apply (Hend [EvPost href js;
                   EvStderr (LF ++ "Too many network errors, aborting...")]).
      * apply (EndTooMany href js r er b st e Ha). lia.
      * now rewrite <- app_assoc.
    + intros H. apply IH in H; [| lia].
      apply (loop_outcome_step net href js fuel er (er - 1) w [EvPost href js]); trivial.
      * fold r. now rewrite Hf.
      * fold r. unfold poll_events. now rewrite Hf.
      * fold r. now rewrite Hf.
      * rewrite n_requests_app. cbn. lia.
  - assert (Hf : failed r = false) by (unfold failed; now rewrite Ha).
    assert (Hd : decoded r = Unmarshal_OktaAuthResponse b (OktaAuthResponse_with st)).
    { unfold decoded. now rewrite Ha. }
    rewrite <- Hd.
    destruct (Status (decoded r) =? "MFA_CHALLENGE")%string eqn:Hm; cbn [negb].
    + unfold eprint, time_Sleep, emit. intros H. apply IH in H; [| lia].
      rewrite <- !app_assoc in H. cbn [app] in H.
      apply (loop_outcome_step net href js fuel er er w
               [EvPost href js; EvStderr "."; EvSleep (5 * time_Second)]); trivial.
      * fold r. unfold pending. rewrite Hf, Hm. reflexivity.
      * fold r. unfold poll_events. now rewrite Hf.
      * fold r. rewrite Hf. lia.
      * rewrite n_requests_app. cbn. lia.
    + destruct (Status (decoded r) =? "SUCCESS")%string eqn:Hs;
        unfold eprint, emit; intros H; injection H as <- <-.
      * apply (Hend [EvPost href js; EvStderr LF]); [| now rewrite <- app_assoc].
        apply EndSuccess. unfold succeeded. now rewrite Hf, Hs.
      * apply (Hend [EvPost href js; EvStderr LF]); [| now rewrite <- app_assoc].
        apply EndBadStatus; trivial; now apply String.eqb_neq.
Qed.

Lemma loop_from_outcome {L : GoLib} (net : Network) (href js : string) (fuel : nat)
    (er : Z) (w : World) (res : OktaAuthResponse * option error) (w' : World) :
  0 < er <= 6 ->
  loop_outcome net href js fuel er w res w' ->
  poll_loop net fuel href js er w = Some (res, w').
Proof.
  intros Her (k & tail & Hk & Hpre & Hlt & Hend & Hw).
  destruct (loop_run net href js k (S (fuel - k - 1)) er w Hpre ltac:(lia)) as [E N].
  replace (k + S (fuel - k - 1))%nat with fuel in E by lia.
  rewrite E, Hw. clear E.
  inversion Hend as [Hs | Hf Hm Hsu | b st e Ha H1]; subst.
  - rewrite loop_success; rewrite N; [| exact Hs]. now rewrite <- !app_assoc.
  - rewrite loop_bad_status; rewrite N; trivial. now rewrite <- !app_assoc.
  - rewrite H1. rewrite (loop_last_failure net href js _ _ b st e) by (now rewrite N).
    now rewrite <- !app_assoc.
Qed.

Lemma VerifyPush_inv {L : GoLib} (net : Network) (fuel : nat) (url : string)
    (req : PushRequest) (w0 : World) (res : OktaAuthResponse * option error) (w' : World) :
  VerifyPush net fuel url req w0 = Some (res, w') ->
  push_outcome net fuel url req w0 res w'.
Proof.
  unfold VerifyPush, push_outcome, pushJson_of, Marshal_PushRequest. cbn [fst].
  rewrite makeRequest_eq.
  destruct (answer _) as [[b st] [e |]].
  - intros H. injection H as <- <-. now split.
  - unfold eprint, emit. rewrite <- app_assoc. intros H.
    apply poll_loop_inv in H; [exact H | lia].
Qed.

Lemma VerifyPush_from_outcome {L : GoLib} (net : Network) (fuel : nat) (url : string)
    (req : PushRequest) (w0 : World) (res : OktaAuthResponse * option error) (w' : World) :
  push_outcome net fuel url req w0 res w' ->
  VerifyPush net fuel url req w0 = Some (res, w').
Proof.
  unfold VerifyPush, push_outcome, pushJson_of, Marshal_PushRequest. cbn [fst].
  rewrite makeRequest_eq.
  destruct (answer _) as [[b st] [e |]].
  - now intros [-> ->].
  - unfold eprint, emit. rewrite <- app_assoc. intros H.
    apply loop_from_outcome; [lia | exact H].
Qed.

(** X1. VerifyPush returns a result exactly in these cases: the request
    that starts the push fails, and the failure is returned after that one
    POST; or, after [k] polls that were each failed or answered
    MFA_CHALLENGE, fewer than six of them failed, the next poll is
    answered SUCCESS (returned with a nil error), is answered with another
    status (YAK_STATUS_BAD_RESPONSE), or is the sixth failed poll (its
    status and error are returned).  The trace is the one these polls
    give, and nothing else makes the call return. *)
Theorem VerifyPush_outcomes {L : GoLib} (net : Network) (fuel : nat) (url : string)
    (req : PushRequest) (w0 : World) (res : OktaAuthResponse * option error) (w' : World) :
  VerifyPush net fuel url req w0 = Some (res, w')
  <-> push_outcome net fuel url req w0 res w'.
Proof. split; [apply VerifyPush_inv | apply VerifyPush_from_outcome]. Qed.

Lemma VerifyPush_outcomes_witness :
  push_outcome (L := Ref.lib) net_interleaved 7 ex_url ex_req []
    (OktaAuthResponse_with YAK_STATUS_NET_ERROR,
     Some (lib_error "dial tcp: connection refused"))
    [EvPost ex_url ex_js; EvStderr "Waiting for MFA response";
     EvPost ex_poll ex_js; EvPost ex_poll ex_js; EvPost ex_poll ex_js;
     EvPost ex_poll ex_js; EvPost ex_poll ex_js;
     EvPost ex_poll ex_js; EvStderr "."; EvSleep (5 * time_Second);
     EvPost ex_poll ex_js;
     EvStderr (LF ++ "Too many network errors, aborting...")].
Proof.
  apply (proj1 (VerifyPush_outcomes (L := Ref.lib) net_interleaved 7 ex_url ex_req [] _ _)).
  vm_compute. reflexivity.
Defined.

(** ** What follows for every run *)

Lemma poll_loop_nil_error {L : GoLib} (net : Network) (href js : string) (fuel : nat) :
  forall er w r w',
    poll_loop net fuel href js er w = Some ((r, None), w') ->
    Status r = "SUCCESS"
    /\ exists w1, w' = (w1 ++ [EvPost href js; EvStderr LF])%list.
Proof.
  induction fuel as [| fuel IH]; intros er w r w'; [discriminate |].
  cbn [poll_loop]. rewrite makeRequest_eq.
  destruct (answer _) as [[b st] [e |]].
  - destruct (int_sub er 1 =? 0); [unfold eprint, emit; discriminate | apply IH].
  - destruct (Status (Unmarshal_OktaAuthResponse b (OktaAuthResponse_with st))
              =? "MFA_CHALLENGE")%string; cbn [negb].
    + unfold eprint, time_Sleep, emit. apply IH.
    + destruct (Status (Unmarshal_OktaAuthResponse b (OktaAuthResponse_with st))
                =? "SUCCESS")%string eqn:Hs; unfold eprint, emit; [| discriminate].
      intros H. injection H as <- <-. split; [now apply String.eqb_eq |].
      exists w. now rewrite <- app_assoc.
Qed.

(** X2. Whenever VerifyPush returns a nil error, the AuthSession it
    returns has Status SUCCESS, and the last thing the call did was a
    poll followed by the closing newline on standard error. *)
Theorem VerifyPush_nil_error_is_success {L : GoLib} (net : Network) (fuel : nat)
    (url : string) (req : PushRequest) (w0 : World) (r : OktaAuthResponse) (w' : World) :
  VerifyPush net fuel url req w0 = Some ((r, None), w') ->
  Status r = "SUCCESS"
  /\ exists href w1, w' = (w1 ++ [EvPost href (pushJson_of req); EvStderr LF])%list.
Proof.
  unfold VerifyPush, pushJson_of, Marshal_PushRequest. cbn [fst].
  rewrite makeRequest_eq.
  destruct (answer _) as [[b st] [e |]]; [discriminate |].
  unfold eprint, emit. intros H. apply poll_loop_nil_error in H as [Hs [w1 Hw]].
  split; [exact Hs |]. now exists (poll_href b), w1.
Qed.

Lemma VerifyPush_nil_error_is_success_witness :
  Status (decoded (L := Ref.lib) ex_success) = "SUCCESS"
  /\ exists href w1,
       [EvPost ex_url ex_js; EvStderr "Waiting for MFA response";
        EvPost ex_poll ex_js; EvPost ex_poll ex_js; EvStderr LF]
       = (w1 ++ [EvPost href (pushJson_of (L := Ref.lib) ex_req); EvStderr LF])%list.
Proof.
  apply (VerifyPush_nil_error_is_success (L := Ref.lib) net_unauthorised_poll 2 ex_url
           ex_req []).
  vm_compute. reflexivity.
Defined.

(** The requests of a trace, and the time slept in it. *)
Definition requests_of (evs : list Event) : list Event := filter is_request evs.

Fixpoint total_sleep (evs : list Event) : Z :=
  match evs with
  | [] => 0
  | EvSleep d :: r => d + total_sleep r
  | _ :: r => total_sleep r
  end.

(** The number of polls answered MFA_CHALLENGE among the [k] requests
    from the [n0]-th on. *)
Fixpoint n_pending {L : GoLib} (poll : nat -> HttpResult) (n0 k : nat) : nat :=
  match k with
  | O => O
  | S k' => ((if pending (poll n0) then 1 else 0) + n_pending poll (S n0) k')%nat
  end.

Lemma total_sleep_app (a b : list Event) :
  total_sleep (a ++ b)%list = total_sleep a + total_sleep b.
Proof.
  induction a as [| e a IH]; [reflexivity |].
  cbn [app total_sleep]. destruct e; rewrite IH; lia.
Qed.

Lemma requests_of_app (a b : list Event) :
  requests_of (a ++ b)%list = (requests_of a ++ requests_of b)%list.
Proof. apply filter_app. Qed.

Lemma n_requests_requests_of (w : World) : n_requests w = List.length (requests_of w).
Proof. reflexivity. Qed.

Lemma n_pending_snoc {L : GoLib} (poll : nat -> HttpResult) (k : nat) :
  forall n0,
    n_pending poll n0 (S k)
    = (n_pending poll n0 k + (if pending (poll (n0 + k)%nat) then 1 else 0))%nat.
Proof.
  induction k as [| k IH]; intros n0.
  - cbn [n_pending]. replace (n0 + 0)%nat with n0 by lia.
    destruct (pending (poll n0)); lia.
  - change (n_pending poll n0 (S (S k)))
      with ((if pending (poll n0) then 1 else 0) + n_pending poll (S n0) (S k))%nat.
    rewrite IH. cbn [n_pending].
    replace (S n0 + k)%nat with (n0 + S k)%nat by lia.
    destruct (pending (poll n0)), (pending (poll (n0 + S k)%nat)); lia.
Qed.

(** The requests and the sleeps of [k] iterations that kept the loop
    going. *)
Lemma run_events_account {L : GoLib} (href js : string) (poll : nat -> HttpResult)
    (k : nat) :
  forall n0,
    (forall i, (i < k)%nat -> failed (poll (n0 + i)%nat) || pending (poll (n0 + i)%nat) = true) ->
    requests_of (run_events href js poll n0 k) = repeat (EvPost href js) k
    /\ total_sleep (run_events href js poll n0 k)
       = 5 * time_Second * Z.of_nat (n_pending poll n0 k)
    /\ (n_pending poll n0 k + n_failed poll n0 k = k)%nat.
Proof.
  induction k as [| k IH]; intros n0 H; [now repeat split |].
  destruct (IH (S n0)) as (R & T & C).
  { intros i Hi. specialize (H (S i) ltac:(lia)).
    now replace (S n0 + i)%nat with (n0 + S i)%nat by lia. }
  pose proof (H 0%nat ltac:(lia)) as H0. rewrite Nat.add_0_r in H0.
  cbn [run_events n_pending n_failed repeat].
  rewrite requests_of_app, total_sleep_app, R, T. unfold poll_events.
  destruct (failed (poll n0)) eqn:Hf.
  - assert (Hp : pending (poll n0) = false) by (unfold pending; now rewrite Hf).
    rewrite Hp. split; [reflexivity | split; [cbn [total_sleep app]; lia | lia]].
  - cbn [orb] in H0. rewrite H0. split; [reflexivity | split; [| lia]].
    cbn [total_sleep app]. unfold time_Second. lia.
Qed.

Lemma PollEnd_account {L : GoLib} (href js : string) (r : HttpResult) (left : Z)
    (res : OktaAuthResponse * option error) (tail : list Event) :
  PollEnd href js r left res tail ->
  requests_of tail = [EvPost href js]
  /\ total_sleep tail = 0
  /\ pending r = false
  /\ (failed r = true -> left = 1 /\ snd res <> None)
  /\ (failed r = false -> snd res = None \/ YakStatusCode (fst res) = YAK_STATUS_BAD_RESPONSE).
Proof.
  intros H.
  assert (Hgoal : forall f : bool, failed r = f ->
            pending r = false ->
            (f = true -> left = 1 /\ snd res <> None) ->
            (f = false -> snd res = None \/ YakStatusCode (fst res) = YAK_STATUS_BAD_RESPONSE) ->
            requests_of tail = [EvPost href js] -> total_sleep tail = 0 ->
            requests_of tail = [EvPost href js]
            /\ total_sleep tail = 0
            /\ pending r = false
            /\ (failed r = true -> left = 1 /\ snd res <> None)
            /\ (failed r = false ->
                snd res = None \/ YakStatusCode (fst res) = YAK_STATUS_BAD_RESPONSE)).
  { intros f Hf Hp H1 H2 H3 H4. rewrite Hf.
    split; [exact H3 | split; [exact H4 | split; [exact Hp | split; [exact H1 | exact H2]]]]. }
  inversion H as [Hs | Hf Hm Hsu | b st e Ha H1]; subst.
  - unfold succeeded in Hs. apply andb_prop in Hs as [Hf Hs].
    apply negb_true_iff in Hf. apply String.eqb_eq in Hs.
    apply (Hgoal false Hf); trivial.
    + unfold pending. rewrite Hf, Hs. reflexivity.
    + discriminate.
    + intros _. now left.
  - apply (Hgoal false Hf); trivial.
    + unfold pending. rewrite Hf. apply String.eqb_neq in Hm. now rewrite Hm.
    + discriminate.
    + intros _. now right.
  - assert (Hf : failed r = true) by (unfold failed; now rewrite Ha).
    apply (Hgoal true Hf); trivial.
    + unfold pending. now rewrite Hf.
    + intros _. split; [reflexivity | discriminate].
    + discriminate.
Qed.

(** What a returning call adds to the trace, told from the answers of
    the server: shared by the theorems below. *)
Lemma VerifyPush_account {L : GoLib} (net : Network) (fuel : nat) (url : string)
    (req : PushRequest) (w0 : World) (res : OktaAuthResponse * option error) (w' : World) :
  VerifyPush net fuel url req w0 = Some (res, w') ->
  let js := pushJson_of req in
  let href := poll_href (fst (fst (answer (http_Post net (n_requests w0) url js)))) in
  let poll := poll_at net href js in
  let first := S (n_requests w0) in
  exists (evs : list Event) (polls : nat),
    w' = (w0 ++ evs)%list
    /\ requests_of evs = EvPost url js :: repeat (EvPost href js) polls
    /\ total_sleep evs = 5 * time_Second * Z.of_nat (n_pending poll first polls)
    /\ (n_failed poll first polls <= 6)%nat
    /\ (snd res = None -> n_failed poll first polls <= 5)%nat
    /\ (polls <= fuel)%nat
    /\ (snd (answer (http_Post net (n_requests w0) url js)) = None -> 1 <= polls)%nat.
Proof.
  intros H js href poll first. apply VerifyPush_inv in H. unfold push_outcome in H.
  fold js in H. subst poll href.
  destruct (answer (http_Post net (n_requests w0) url js)) as [[b st] [e |]]; cbn [fst].
  - destruct H as [-> ->]. exists [EvPost url js], 0%nat.
    repeat split; cbn; try lia. discriminate.
  - destruct H as (k & tail & Hk & Hpre & Hlt & Hend & Hw).
    rewrite n_requests_app in Hpre, Hlt, Hend, Hw.
    change (n_requests (push_started url js)) with 1%nat in Hpre, Hlt, Hend, Hw.
    replace (n_requests w0 + 1)%nat with first in Hpre, Hlt, Hend, Hw by (unfold first; lia).
    fold (poll_at net (poll_href b) js) in Hlt, Hend, Hw.
    destruct (run_events_account (poll_href b) js (poll_at net (poll_href b) js) k first Hpre)
      as (R & T & C).
    destruct (PollEnd_account _ _ _ _ _ _ Hend) as (Rt & Tt & Hp & Hfl & Hnf).
    exists (push_started url js ++ run_events (poll_href b) js
              (poll_at net (poll_href b) js) first k ++ tail)%list, (S k).
    rewrite n_pending_snoc, n_failed_snoc, Hp.
    repeat split.
    + rewrite Hw. now rewrite <- !app_assoc.
    + rewrite !requests_of_app, R, Rt. cbn [requests_of push_started filter is_request app].
      f_equal. clear. induction k as [| k IH]; [reflexivity |]. cbn [repeat app].
      now rewrite IH.
    + rewrite !total_sleep_app, T, Tt. cbn [total_sleep push_started]. lia.
    + destruct (failed (poll_at net (poll_href b) js (first + k))); lia.
    + intros Hnil. destruct (failed (poll_at net (poll_href b) js (first + k))) eqn:Hf;
        [| lia].
      destruct (Hfl eq_refl) as [_ Hne]. contradiction.
    + lia.
    + lia.
Qed.

Lemma VerifyPush_polls_made {L : GoLib} (w0 w' evs : list Event) (first polls : nat)
    (a b : Event) :
  first = S (n_requests w0) ->
  is_request a = true ->
  w' = (w0 ++ evs)%list ->
  requests_of evs = a :: repeat b polls ->
  (n_requests w' - first)%nat = polls.
Proof.
  intros -> Ha -> R. rewrite n_requests_app, (n_requests_requests_of evs), R.
  cbn [List.length]. rewrite repeat_length. lia.
Qed.

(** X3. In every call of VerifyPush that returns, at most six of the
    polls made have failed, and at most five when the call returns a nil
    error: the loop never polls again after its sixth failure. *)
Theorem VerifyPush_failed_polls_bounded {L : GoLib} (net : Network) (fuel : nat)
    (url : string) (req : PushRequest) (w0 : World)
    (res : OktaAuthResponse * option error) (w' : World) :
  VerifyPush net fuel url req w0 = Some (res, w') ->
  let js := pushJson_of req in
  let href := poll_href (fst (fst (answer (http_Post net (n_requests w0) url js)))) in
  let first := S (n_requests w0) in
  let polls := (n_requests w' - first)%nat in
  (n_failed (poll_at net href js) first polls <= 6)%nat
  /\ (snd res = None -> n_failed (poll_at net href js) first polls <= 5)%nat.
Proof.
  intros H js href first polls.
  destruct (VerifyPush_account net fuel url req w0 res w' H)
    as (evs & n & Hw & R & _ & H6 & H5 & _ & _).
  fold js href first in R, H6, H5.
  assert (E : polls = n).
  { unfold polls. now apply (VerifyPush_polls_made w0 w' evs first n (EvPost url js) (EvPost href js)
                 eq_refl eq_refl Hw R). }
  rewrite E. now split.
Qed.

Lemma VerifyPush_failed_polls_bounded_witness :
  (n_failed (poll_at net_interleaved ex_poll ex_js) 1 7 <= 6)%nat
  /\ (Some (lib_error "dial tcp: connection refused") = None ->
      n_failed (poll_at net_interleaved ex_poll ex_js) 1 7 <= 5)%nat.
Proof.
  apply (VerifyPush_failed_polls_bounded (L := Ref.lib) net_interleaved 7 ex_url ex_req []
           (OktaAuthResponse_with YAK_STATUS_NET_ERROR,
            Some (lib_error "dial tcp: connection refused"))
           [EvPost ex_url ex_js; EvStderr "Waiting for MFA response";
            EvPost ex_poll ex_js; EvPost ex_poll ex_js; EvPost ex_poll ex_js;
            EvPost ex_poll ex_js; EvPost ex_poll ex_js;
            EvPost ex_poll ex_js; EvStderr "."; EvSleep (5 * time_Second);
            EvPost ex_poll ex_js;
            EvStderr (LF ++ "Too many network errors, aborting...")]).
  vm_compute. reflexivity.
Defined.



(** X5. A call of VerifyPush that returns has slept five seconds for
    each poll answered MFA_CHALLENGE and not at all otherwise: a failed
    poll is followed by the next poll without a pause. *)
Theorem VerifyPush_sleeps {L : GoLib} (net : Network) (fuel : nat) (url : string)
    (req : PushRequest) (w0 : World) (res : OktaAuthResponse * option error) (w' : World) :
  VerifyPush net fuel url req w0 = Some (res, w') ->
  let js := pushJson_of req in
  let href := poll_href (fst (fst (answer (http_Post net (n_requests w0) url js)))) in
  let first := S (n_requests w0) in
  let polls := (n_requests w' - first)%nat in
  total_sleep w'
  = total_sleep w0
    + 5 * time_Second * Z.of_nat (n_pending (poll_at net href js) first polls).
Proof.
  intros H js href first polls.
  destruct (VerifyPush_account net fuel url req w0 res w' H)
    as (evs & n & Hw & R & T & _).
  fold js href first in R, T.
  assert (E : polls = n).
  { unfold polls. now apply (VerifyPush_polls_made w0 w' evs first n (EvPost url js) (EvPost href js)
                 eq_refl eq_refl Hw R). }
  rewrite E, Hw, total_sleep_app, T. reflexivity.
Qed.

Lemma VerifyPush_sleeps_witness :
  total_sleep [EvPost ex_url ex_js; EvStderr "Waiting for MFA response";
               EvPost ex_poll ex_js; EvPost ex_poll ex_js; EvPost ex_poll ex_js;
               EvPost ex_poll ex_js; EvPost ex_poll ex_js;
               EvPost ex_poll ex_js; EvStderr "."; EvSleep (5 * time_Second);
               EvPost ex_poll ex_js;
               EvStderr (LF ++ "Too many network errors, aborting...")]
  = 0 + 5 * time_Second
        * Z.of_nat (n_pending (L := Ref.lib) (poll_at net_interleaved ex_poll ex_js) 1 7).
Proof.
  apply (VerifyPush_sleeps (L := Ref.lib) net_interleaved 7 ex_url ex_req []
           (OktaAuthResponse_with YAK_STATUS_NET_ERROR,
            Some (lib_error "dial tcp: connection refused"))).
  vm_compute. reflexivity.
Defined.

(** X6. VerifyPush has no time limit of its own: as long as every poll
    either fails or is answered MFA_CHALLENGE, and fewer than six polls
    have failed, no number of iterations makes the call return.  So it is
    for a server that answers MFA_CHALLENGE for ever. *)
Theorem VerifyPush_polls_for_ever {L : GoLib} (net : Network) (url : string)
    (req : PushRequest) (w0 : World) (body0 : string) (st0 : Z) :
  let js := pushJson_of req in
  let href := poll_href body0 in
  let first := S (n_requests w0) in
  let poll := poll_at net href js in
  answer (http_Post net (n_requests w0) url js) = (body0, st0, None) ->
  (forall i, failed (poll (first + i)%nat) || pending (poll (first + i)%nat) = true) ->
  (forall k, (n_failed poll first k < 6)%nat) ->
  forall fuel, VerifyPush net fuel url req w0 = None.
Proof.
  intros js href first poll Hstart Hpre Hlt fuel.
  destruct (VerifyPush_run net url req w0 body0 st0 Hstart fuel 0) as [E _].
  - intros i _. apply Hpre.
  - apply Hlt.
  - rewrite Nat.add_0_r in E. rewrite E. reflexivity.
Qed.

(* The approval is never given: every poll is answered MFA_CHALLENGE. *)
Definition net_always_pending : Network := scripted [ex_started] ex_pending.

Lemma VerifyPush_polls_for_ever_witness :
  VerifyPush (L := Ref.lib) net_always_pending 1000 ex_url ex_req [] = None.
Proof.
  assert (Hp : forall i, pending (L := Ref.lib)
                           (poll_at net_always_pending ex_poll ex_js (1 + i)) = true).
  { intros i. unfold poll_at, net_always_pending, scripted. cbn [http_Post].
    change (1 + i)%nat with (S i). cbn [nth]. now destruct i. }
  apply (VerifyPush_polls_for_ever (L := Ref.lib) net_always_pending ex_url ex_req []
           (push_started_body ex_poll) YAK_STATUS_OK).
  - reflexivity.
  - intros i. change (poll_href (L := Ref.lib) (push_started_body ex_poll)) with ex_poll.
    change (S (n_requests []) + i)%nat with (1 + i)%nat.
    fold ex_js. rewrite (Hp i). apply orb_true_r.
  - intros k.
    change (poll_href (L := Ref.lib) (push_started_body ex_poll)) with ex_poll.
    fold ex_js.
    destruct (run_all_pending (L := Ref.lib) ex_poll ex_js
                (poll_at net_always_pending ex_poll ex_js) k 1 (fun i _ => Hp i))
      as [E _].
    change (S (n_requests [])) with 1%nat. rewrite E. lia.
Defined.

(** ** Bodies that carry nothing *)

(** The value carries no member named [name] (in any letter case): it is
    not an object, or none of its keys folds to [name]. *)
Definition lacks_key (name : string) (j : JSON) : Prop :=
  match j with
  | JObject members => forall kv, In kv members -> foldName (fst kv) <> name
  | _ => True
  end.

(** The body carries no member named [name]: it is not JSON at all, or
    its value lacks the key. *)
Definition body_lacks_key {L : GoLib} (name body : string) : Prop :=
  match json_parse body with
  | Some j => lacks_key name j
  | None => True
  end.

Lemma decode_keeps_links (members : list (string * JSON)) :
  forall v,
    (forall kv, In kv members -> foldName (fst kv) <> "_links") ->
    Push_Links (decode_struct PushRequestResponse_field (JObject members) v)
    = Push_Links v.
Proof.
  unfold decode_struct.
  induction members as [| kv members IH]; intros v H; [reflexivity |].
  cbn [fold_left]. rewrite IH by (intros x Hx; apply H; now right).
  specialize (H kv (or_introl eq_refl)). apply String.eqb_neq in H.
  unfold PushRequestResponse_field. rewrite H.
  now destruct (foldName (fst kv) =? "factorresult")%string.
Qed.

Lemma decode_keeps_Status (members : list (string * JSON)) :
  forall v,
    (forall kv, In kv members -> foldName (fst kv) <> "status") ->
    Status (decode_struct OktaAuthResponse_field (JObject members) v) = Status v.
Proof.
  unfold decode_struct.
  induction members as [| kv members IH]; intros v H; [reflexivity |].
  cbn [fold_left]. rewrite IH by (intros x Hx; apply H; now right).
  specialize (H kv (or_introl eq_refl)). apply String.eqb_neq in H.
  unfold OktaAuthResponse_field. rewrite H.
  repeat match goal with
         | |- context [if ?b then _ else _] => destruct b; try reflexivity
         end.
Qed.

Lemma poll_href_missing {L : GoLib} (body : string) :
  body_lacks_key "_links" body -> poll_href body = "".
Proof.
  unfold body_lacks_key, poll_href, Unmarshal_PushRequestResponse, json_Unmarshal.
  destruct (json_parse body) as [j |]; [| reflexivity].
  destruct j as [| b | n | s | l | ms]; try reflexivity.
  cbn [lacks_key]. intros H. now rewrite decode_keeps_links.
Qed.

Lemma Status_missing {L : GoLib} (body : string) (v : OktaAuthResponse) :
  body_lacks_key "status" body -> Status (Unmarshal_OktaAuthResponse body v) = Status v.
Proof.
  unfold body_lacks_key, Unmarshal_OktaAuthResponse, json_Unmarshal.
  destruct (json_parse body) as [j |]; [| reflexivity].
  destruct j as [| b | n | s | l | ms]; try reflexivity.
  cbn [lacks_key]. intros H. now rewrite decode_keeps_Status.
Qed.

(** X7. VerifyPush does not check that the answer to its first request
    carries a poll link.  When that body is not JSON, or is JSON without
    a [_links] member, the call goes on to poll, and every poll is a POST
    to the empty address. *)
Theorem VerifyPush_without_poll_link {L : GoLib} (net : Network) (fuel : nat)
    (url : string) (req : PushRequest) (w0 : World) (body0 : string) (st0 : Z)
    (res : OktaAuthResponse * option error) (w' : World) :
  let js := pushJson_of req in
  answer (http_Post net (n_requests w0) url js) = (body0, st0, None) ->
  body_lacks_key "_links" body0 ->
  VerifyPush net fuel url req w0 = Some (res, w') ->
  exists polls : nat,
    (1 <= polls)%nat
    /\ requests_of w'
       = (requests_of w0 ++ EvPost url js :: repeat (EvPost "" js) polls)%list.
Proof.
  intros js Hstart Hlack H.
  destruct (VerifyPush_account net fuel url req w0 res w' H)
    as (evs & n & Hw & R & _ & _ & _ & _ & H1).
  fold js in R, H1. rewrite Hstart in R, H1. cbn [fst snd] in R, H1.
  rewrite (poll_href_missing body0 Hlack) in R.
  exists n. split; [now apply H1 |]. now rewrite Hw, requests_of_app, R.
Qed.

(* The push is started with the answer {}, and nothing answers after. *)
Definition net_no_link : Network := scripted [http_200 "{}"] down.

Lemma VerifyPush_without_poll_link_witness :
  exists polls : nat,
    (1 <= polls)%nat
    /\ requests_of [EvPost ex_url ex_js; EvStderr "Waiting for MFA response";
                    EvPost "" ex_js; EvPost "" ex_js; EvPost "" ex_js;
                    EvPost "" ex_js; EvPost "" ex_js; EvPost "" ex_js;
                    EvStderr (LF ++ "Too many network errors, aborting...")]
       = (requests_of []
          ++ EvPost ex_url (pushJson_of (L := Ref.lib) ex_req)
             :: repeat (EvPost "" (pushJson_of (L := Ref.lib) ex_req)) polls)%list.
Proof.
  apply (VerifyPush_without_poll_link (L := Ref.lib) net_no_link 6 ex_url ex_req []
           "{}" YAK_STATUS_OK
           (OktaAuthResponse_with YAK_STATUS_NET_ERROR,
            Some (lib_error "dial tcp: connection refused"))).
  - reflexivity.
  - cbv. intros kv [].
  - vm_compute. reflexivity.
Defined.

(** X8. A poll whose body carries no status (it is not JSON, or is JSON
    without a [status] member) ends the polling at once: VerifyPush
    returns an AuthSession marked YAK_STATUS_BAD_RESPONSE and the error
    "Bad status from Okta API: " with nothing after the colon.  The poll
    is not repeated. *)
Theorem VerifyPush_poll_without_status {L : GoLib} (net : Network) (url : string)
    (req : PushRequest) (w0 : World) (body0 : string) (st0 : Z) (k fuel : nat)
    (b : string) (st : Z) :
  let js := pushJson_of req in
  let href := poll_href body0 in
  let first := S (n_requests w0) in
  let poll := poll_at net href js in
  answer (http_Post net (n_requests w0) url js) = (body0, st0, None) ->
  (forall i, (i < k)%nat ->
     failed (poll (first + i)%nat) || pending (poll (first + i)%nat) = true) ->
  (n_failed poll first k < 6)%nat ->
  answer (poll (first + k)%nat) = (b, st, None) ->
  body_lacks_key "status" b ->
  (k < fuel)%nat ->
  exists r,
    VerifyPush net fuel url req w0
    = Some ((r, Some (errors_New "Bad status from Okta API: ")),
            (w0 ++ push_started url js ++ run_events href js poll first k
                ++ [EvPost href js; EvStderr LF])%list)
    /\ Status r = "" /\ YakStatusCode r = YAK_STATUS_BAD_RESPONSE.
Proof.
  intros js href first poll Hstart Hpre Hlt Ha Hlack Hfuel.
  assert (Hf : failed (poll (first + k)%nat) = false) by (unfold failed; now rewrite Ha).
  assert (Hs : Status (decoded (poll (first + k)%nat)) = "").
  { unfold decoded. rewrite Ha. now rewrite Status_missing. }
  exists (set_YakStatusCode YAK_STATUS_BAD_RESPONSE (decoded (poll (first + k)%nat))).
  split; [| split; [exact Hs | reflexivity]].
  rewrite (VerifyPush_bad net url req w0 body0 st0 Hstart k fuel Hpre Hfuel Hlt Hf);
    fold js href first poll; rewrite Hs; try discriminate.
  reflexivity.
Qed.

(* The poll link answers 200 with a page of HTML. *)
Definition net_html_poll : Network :=
  scripted [ex_started; http_200 "<html>Service Unavailable</html>"] ex_success.

Lemma VerifyPush_poll_without_status_witness :
  exists r,
    VerifyPush (L := Ref.lib) net_html_poll 1 ex_url ex_req []
    = Some ((r, Some (errors_New "Bad status from Okta API: ")),
            [EvPost ex_url ex_js; EvStderr "Waiting for MFA response";
             EvPost ex_poll ex_js; EvStderr LF])
    /\ Status r = "" /\ YakStatusCode r = YAK_STATUS_BAD_RESPONSE.
Proof.
  destruct (VerifyPush_poll_without_status (L := Ref.lib) net_html_poll ex_url ex_req []
              (push_started_body ex_poll) YAK_STATUS_OK 0 1
              "<html>Service Unavailable</html>" YAK_STATUS_OK) as (r & E & Hs & Hy).
  - reflexivity.
  - intros i Hi. lia.
  - cbn. lia.
  - reflexivity.
  - vm_compute. exact I.
  - lia.
  - exists r. split; [| now split]. rewrite E. vm_compute. reflexivity.
Defined.

(** ** The single-request calls, in every case *)




(** X11. VerifyTotp reads the server's answer exactly as Authenticate
    does: when the two calls receive the same answer they return the same
    AuthSession and the same error. *)
Theorem VerifyTotp_reads_as_Authenticate {L : GoLib} (net : Network)
    (oktaHref : string) (userData : UserData) (w1 : World) (oktaUrl : URL)
    (url : string) (totp : TotpRequest) (w2 : World) :
  url_Parse oktaHref = inr oktaUrl ->
  http_Post net (n_requests w1)
            (URL_String (URL_ResolveReference oktaUrl primaryAuthEndpoint))
            (fst (Marshal_UserData userData))
  = http_Post net (n_requests w2) url (fst (Marshal_TotpRequest totp)) ->
  fst (Authenticate net oktaHref userData w1) = fst (VerifyTotp net url totp w2).
Proof.
  intros Hu Hsame.
  rewrite (Authenticate_eq net oktaHref userData w1 oktaUrl Hu), VerifyTotp_eq.
  cbn [fst]. now rewrite Hsame.
Qed.

(* The same answer to both calls: a session that asks for a second factor. *)
Definition net_mfa_required : Network :=
  scripted [http_200 ("{" ++ json_key "stateToken" ++ DQ ++ "00abc" ++ DQ ++ ","
                          ++ json_key "status" ++ DQ ++ "MFA_REQUIRED" ++ DQ ++ "}")] down.

Lemma VerifyTotp_reads_as_Authenticate_witness :
  fst (Authenticate (L := Ref.lib) net_mfa_required ex_okta ex_user [])
  = fst (VerifyTotp (L := Ref.lib) net_mfa_required ex_url ex_totp []).
Proof.
  destruct (Ref.url_Parse ex_okta) as [e | oktaUrl] eqn:Ho; [discriminate |].
  apply (VerifyTotp_reads_as_Authenticate (L := Ref.lib) net_mfa_required ex_okta ex_user []
           oktaUrl ex_url ex_totp [] Ho).
  reflexivity.
Defined.

(** The names, folded, under which the members of a body fill the
    fields of OktaAuthResponse. *)
Definition OktaAuthResponse_keys : list string :=
  ["statetoken"; "sessiontoken"; "expiresat"; "status"; "_embedded"; "yakstatuscode"].

Lemma decode_unknown_keys (members : list (string * JSON)) :
  forall v,
    (forall kv, In kv members -> ~ In (foldName (fst kv)) OktaAuthResponse_keys) ->
    decode_struct OktaAuthResponse_field (JObject members) v = v.
Proof.
  unfold decode_struct.
  induction members as [| kv members IH]; intros v H; [reflexivity |].
  cbn [fold_left]. rewrite IH by (intros x Hx; apply H; now right).
  specialize (H kv (or_introl eq_refl)). unfold OktaAuthResponse_field.
  repeat match goal with
         | |- context [if (?a =? ?b)%string then _ else _] =>
             destruct (String.eqb_spec a b) as [E | _];
             [exfalso; apply H; rewrite E; cbn; tauto |]
         end.
  reflexivity.
Qed.

(** X12. When the transport succeeds and the body names none of the
    fields of the AuthSession (it is not JSON, is not a JSON object, or
    is an object whose keys are all unknown), Authenticate returns the
    zero AuthSession marked YAK_STATUS_OK and a nil error: an empty
    or foreign answer is not told apart from a successful one. *)
Theorem Authenticate_unfilled {L : GoLib} (net : Network) (oktaHref : string)
    (userData : UserData) (w : World) (oktaUrl : URL) (body : string) (st : Z) :
  url_Parse oktaHref = inr oktaUrl ->
  answer (http_Post net (n_requests w)
            (URL_String (URL_ResolveReference oktaUrl primaryAuthEndpoint))
            (fst (Marshal_UserData userData))) = (body, st, None) ->
  (forall name, In name OktaAuthResponse_keys -> body_lacks_key name body) ->
  fst (Authenticate net oktaHref userData w) = (OktaAuthResponse_with YAK_STATUS_OK, None).
Proof.
  intros Hu Ha Hlack. rewrite (Authenticate_eq net oktaHref userData w oktaUrl Hu).
  cbn [fst]. rewrite Ha. f_equal.
  unfold Unmarshal_OktaAuthResponse, json_Unmarshal. unfold body_lacks_key in Hlack.
  destruct (json_parse body) as [j |]; [| reflexivity].
  destruct j as [| b | n | s | l | ms]; try reflexivity.
  apply decode_unknown_keys. intros kv Hin Hk.
  exact (Hlack _ Hk kv Hin eq_refl).
Qed.

(* The server answers 200 with the body {"errorCode":"E0000004"}. *)
Definition net_foreign_body : Network :=
  scripted [http_200 ("{" ++ json_key "errorCode" ++ DQ ++ "E0000004" ++ DQ ++ "}")] down.

Lemma Authenticate_unfilled_witness :
  fst (Authenticate (L := Ref.lib) net_foreign_body ex_okta ex_user [])
  = (OktaAuthResponse_with YAK_STATUS_OK, None).
Proof.
  destruct (Ref.url_Parse ex_okta) as [e | oktaUrl] eqn:Ho; [discriminate |].
  apply (Authenticate_unfilled (L := Ref.lib) net_foreign_body ex_okta ex_user [] oktaUrl
           ("{" ++ json_key "errorCode" ++ DQ ++ "E0000004" ++ DQ ++ "}") YAK_STATUS_OK Ho).
  - reflexivity.
  - intros name Hn. vm_compute. intros kv [<- | []].
    cbn [fst]. intros E. rewrite <- E in Hn. vm_compute in Hn.
    repeat (destruct Hn as [Hn | Hn]; [discriminate |]). exact Hn.
Defined.

(** X13. In all four operations a non-nil error never comes with
    YAK_STATUS_OK; for [makeRequest] the converse holds too, so there the
    status is YAK_STATUS_OK exactly when the error is nil. *)
Theorem error_never_with_status_ok {L : GoLib} (net : Network) :
  (forall url body w,
      snd (fst (makeRequest net url body w)) = None
      <-> snd (fst (fst (makeRequest net url body w))) = YAK_STATUS_OK)
  /\ (forall oktaHref userData w e,
        snd (fst (Authenticate net oktaHref userData w)) = Some e ->
        YakStatusCode (fst (fst (Authenticate net oktaHref userData w))) <> YAK_STATUS_OK)
  /\ (forall url totp w e,
        snd (fst (VerifyTotp net url totp w)) = Some e ->
        YakStatusCode (fst (fst (VerifyTotp net url totp w))) <> YAK_STATUS_OK)
  /\ (forall fuel url req w r e w',
        VerifyPush net fuel url req w = Some ((r, Some e), w') ->
        YakStatusCode r <> YAK_STATUS_OK).
Proof.
  split; [| split; [| split]].
  - intros url body w. rewrite makeRequest_eq. cbn [fst].
    match goal with |- context [answer ?r] => pose proof (answer_status r) as Hst;
                                             destruct (answer r) as [[b st] [e |]] end;
      cbn [fst snd]; split; intros H; trivial; [discriminate | contradiction].
  - intros oktaHref userData w e. apply Authenticate_error_not_ok.
  - intros url totp w e. apply VerifyTotp_error_not_ok.
  - intros fuel url req w r e w'. apply VerifyPush_error_not_ok.
Qed.

(** ** The assertion exchange, in every case *)

(** X14. When both addresses parse, the GET is answered below 300 and
    the body is read, AwsSamlLogin returns what the value of the first
    SAMLResponse input of the document decodes to: the decoded bytes and
    a nil error when the value is well-formed base64, and otherwise the
    decoder's error with an empty payload (the bytes decoded before the
    error are dropped). *)
Theorem AwsSamlLogin_payload {L : GoLib} (net : Network) (oktaHref samlHref : string)
    (oktaAuthResponse : OktaAuthResponse) (w : World) (oktaUrl samlEndpoint : URL)
    (resp : HttpResponse) (body : string) (pre post : list Token) (t : Token) :
  url_Parse oktaHref = inr oktaUrl ->
  url_Parse samlHref = inr samlEndpoint ->
  http_Get net (n_requests w)
           (URL_String (samlUrl_of oktaUrl samlEndpoint oktaAuthResponse))
  = HttpOk resp ->
  resp_StatusCode resp < 300 ->
  resp_Body resp = (body, None) ->
  html_tokens body = (pre ++ t :: post)%list ->
  forallb (fun x => negb (stops x)) pre = true ->
  is_saml_input t = true ->
  fst (AwsSamlLogin net oktaHref samlHref oktaAuthResponse w)
  = match base64_StdEncoding_DecodeString (attr_value "value" (Attr t)) with
    | (saml, None) => (saml, None)
    | (_, Some e) => ("", Some e)
    end.
Proof.
  intros Ho Hs Hget Hcode Hbody Hts Hpre Ht.
  assert (Hx : extractSamlPayload body = (attr_value "value" (Attr t), None)).
  { unfold extractSamlPayload. rewrite Hts, (scan_tokens_prefix pre _ Hpre).
    now rewrite scan_tokens_match; [| apply saml_input_not_error |]. }
  unfold AwsSamlLogin. rewrite Ho, Hs. unfold bind, client_Get. rewrite Hget.
  destruct (Z.leb_spec 300 (resp_StatusCode resp)); [lia |].
  rewrite Hbody, Hx.
  now destruct (base64_StdEncoding_DecodeString _) as [saml [e |]].
Qed.

(* The page of [ex_html]. *)
Definition net_saml_page : Network := scripted [http_200 ex_html] down.

(* A page whose payload breaks off: value="QUJDRA". *)
Definition ex_html_truncated : string :=
  "<input name=" ++ DQ ++ "SAMLResponse" ++ DQ ++ " value=" ++ DQ ++ "QUJDRA" ++ DQ ++ ">".

Definition net_truncated_page : Network := scripted [http_200 ex_html_truncated] down.

Lemma AwsSamlLogin_payload_witness :
  fst (AwsSamlLogin (L := Ref.lib) net_saml_page ex_okta ex_saml ex_session [])
  = ("ABC", None)
  /\ fst (AwsSamlLogin (L := Ref.lib) net_truncated_page ex_okta ex_saml ex_session [])
     = ("", Some (base64_CorruptInputError 4)).
Proof.
  destruct (Ref.url_Parse ex_okta) as [e | oktaUrl] eqn:Ho; [discriminate |].
  destruct (Ref.url_Parse ex_saml) as [e | samlEndpoint] eqn:Hs; [discriminate |].
  split.
  - rewrite (AwsSamlLogin_payload (L := Ref.lib) net_saml_page ex_okta ex_saml ex_session []
               oktaUrl samlEndpoint (mkHttpResponse 200 "200 OK" (ex_html, None)) ex_html
               [mkToken StartTagToken "html" []; mkToken StartTagToken "body" [];
                mkToken StartTagToken "form" [mkAttribute "" "method" "post"]]
               [mkToken StartTagToken "input" [mkAttribute "" "type" "submit"];
                mkToken EndTagToken "form" []; mkToken EndTagToken "body" [];
                mkToken EndTagToken "html" []]
               (mkToken StartTagToken "input"
                  [mkAttribute "" "type" "hidden"; mkAttribute "" "name" "SAMLResponse";
                   mkAttribute "" "value" "QUJD"]) Ho Hs);
      reflexivity.
  - rewrite (AwsSamlLogin_payload (L := Ref.lib) net_truncated_page ex_okta ex_saml
               ex_session [] oktaUrl samlEndpoint
               (mkHttpResponse 200 "200 OK" (ex_html_truncated, None)) ex_html_truncated
               [] []
               (mkToken StartTagToken "input"
                  [mkAttribute "" "name" "SAMLResponse"; mkAttribute "" "value" "QUJDRA"])
               Ho Hs);
      reflexivity.
Defined.


(** ** The HTML scan, in every case *)

(** The tokens the scan looks at: those of type ErrorToken and the start
    or self-closing tags named [input]. *)
Definition scanned (t : Token) : bool :=
  is_ErrorToken (Type_ t) || (is_tag_open (Type_ t) && (Data t =? "input")%string).

Lemma scan_tokens_scanned (ts : list Token) :
  fst (scan_tokens ts) = fst (scan_tokens (filter scanned ts)).
Proof.
  induction ts as [| t ts IH]; [reflexivity |].
  cbn [filter]. unfold scanned at 1.
  destruct (is_ErrorToken (Type_ t)) eqn:He.
  - cbn [orb scan_tokens]. now rewrite He.
  - cbn [orb]. destruct (is_tag_open (Type_ t) && (Data t =? "input")%string) eqn:Hi.
    + cbn [scan_tokens]. rewrite He, Hi.
      destruct (scan_attributes (Attr t) "" "") as [n v].
      now destruct (n =? "SAMLResponse")%string.
    + cbn [scan_tokens]. rewrite He, Hi. exact IH.
Qed.

(** X16. The scan has no eye for anything but [input] tags: two
    documents whose start and self-closing [input] tags (and tokeniser
    errors) are the same, in the same order, give the same result,
    whatever text, comments, end tags and other elements stand between
    them or around them. *)
Theorem extractSamlPayload_sees_inputs_only {L : GoLib} (doc1 doc2 : string) :
  filter scanned (html_tokens doc1) = filter scanned (html_tokens doc2) ->
  extractSamlPayload doc1 = extractSamlPayload doc2.
Proof.
  intros H. unfold extractSamlPayload.
  now rewrite (scan_tokens_scanned (html_tokens doc1)), H, <- scan_tokens_scanned.
Qed.

(* The two inputs of [ex_html] with nothing around them. *)
Definition ex_html_bare : string :=
  "<input type=" ++ DQ ++ "hidden" ++ DQ
  ++ " name=" ++ DQ ++ "SAMLResponse" ++ DQ ++ " value=" ++ DQ ++ "QUJD" ++ DQ
  ++ "><input type=" ++ DQ ++ "submit" ++ DQ ++ ">".

Lemma extractSamlPayload_sees_inputs_only_witness :
  extractSamlPayload (L := Ref.lib) ex_html = extractSamlPayload (L := Ref.lib) ex_html_bare.
Proof.
  apply (extractSamlPayload_sees_inputs_only (L := Ref.lib) ex_html ex_html_bare).
  vm_compute. reflexivity.
Defined.

(** X17. When a tag repeats an attribute, the scan takes the last one:
    the name compared with SAMLResponse is that of the last [name]
    attribute of the tag, and the value returned that of its last
    [value] attribute. *)
Theorem scan_attributes_last_wins (pre post : list Attribute) (a : Attribute)
    (inputName inputValue : string) :
  ((Key a = "name" /\ forall x, In x post -> Key x <> "name") ->
   fst (scan_attributes (pre ++ a :: post) inputName inputValue) = Val a)
  /\ ((Key a = "value" /\ forall x, In x post -> Key x <> "value") ->
      snd (scan_attributes (pre ++ a :: post) inputName inputValue) = Val a).
Proof.
  assert (Hfind : forall key,
             Key a = key -> (forall x, In x post -> Key x <> key) ->
             find (fun x => (Key x =? key)%string) (rev (pre ++ a :: post)) = Some a).
  { intros key Ha Hpost. rewrite rev_app_distr. cbn [rev]. rewrite <- app_assoc.
    cbn [app].
    assert (Hnone : find (fun x => (Key x =? key)%string) (rev post) = None).
    { destruct (find _ (rev post)) as [x |] eqn:E; [| reflexivity].
      apply find_some in E as [Hin Hk]. apply String.eqb_eq in Hk.
      apply in_rev in Hin. now destruct (Hpost x Hin). }
    induction (rev post) as [| y l IH]; cbn [app find].
    - apply String.eqb_eq in Ha. now rewrite Ha.
    - cbn [find] in Hnone. destruct (Key y =? key)%string; [discriminate |].
      now apply IH. }
  rewrite scan_attributes_last. cbn [fst snd]. split; intros [Ha Hpost].
  - now rewrite (Hfind "name" Ha Hpost).
  - now rewrite (Hfind "value" Ha Hpost).
Qed.

(** ** TotpFactorName *)

(** X18. TotpFactorName renames the key GOOGLE and no other; it never
    returns GOOGLE, and applying it twice is the same as applying it
    once. *)
Theorem TotpFactorName_idempotent (key : string) :
  TotpFactorName (TotpFactorName key) = TotpFactorName key
  /\ TotpFactorName key <> "GOOGLE"
  /\ (TotpFactorName key <> key -> key = "GOOGLE").
Proof.
  unfold TotpFactorName.
  destruct (String.eqb_spec key "GOOGLE") as [-> | Hne].
  - split; [reflexivity | split; [discriminate | reflexivity]].
  - apply String.eqb_neq in Hne. rewrite Hne.
    split; [reflexivity | split; [now apply String.eqb_neq |]].
    intros H. now destruct H.
Qed.

Lemma scan_attributes_last_wins_witness :
  fst (scan_attributes [mkAttribute "" "name" "SAMLResponse"; mkAttribute "" "value" "QUJD";
                        mkAttribute "" "name" "RelayState"] "" "") = "RelayState".
Proof.
  apply (proj1 (scan_attributes_last_wins
                  [mkAttribute "" "name" "SAMLResponse"; mkAttribute "" "value" "QUJD"] []
                  (mkAttribute "" "name" "RelayState") "" "")).
  split; [reflexivity | intros x []].
Defined.

(** ** The list of factors *)









